(** * custom_conversation: the prompt and tool aggregation of one turn

    A shallow embedding of [async_update_llm_data]
    (custom_components/custom_conversation/cc_llm.py) and the properties of
    its three prompt policies, of the collection loop and of what it writes
    on the chat log.

    The function is one coroutine.  Its collaborators (the user store, the
    LLM API registry, [CustomLLMAPI], the prompt manager) are awaited and may
    raise; the logger, the Langfuse context and the conversation trace only
    receive data.  The embedding keeps the three kinds of effect apart:
    - the chat log is a mutable object: it is the state that is threaded;
    - everything the function sends out (log records, awaited calls, trace
      records) is written to a chronological list of events;
    - an exception ends the run with [Raise], keeping the chat log and the
      events as they were when it was raised.

    What a collaborator answers is a parameter ([Host]): a result or an
    exception for each call.  Every call of a provider returns a new
    instance, and the [api_prompt] of that instance says what each of its
    awaits gives, the first (line 90) and the second (line 124) apart: a
    coroutine object gives its value once and raises [RuntimeError] when it
    is awaited again.  Constructors, setters, the logger and the two trace
    sinks do not raise.  The [observe] decorator only forwards the call and
    is left out. *)

From stdpp Require Import base option list strings gmap.

Set Default Proof Using "Type".

(** ** Python values used by the function *)

(** The newline of the literal ["\n"]. *)
Definition nl : string := String (Ascii.ascii_of_nat 10) EmptyString.

(** [bool(x)] for [x : str | None]. *)
Definition truthy (x : option string) : bool :=
  match x with
  | Some s => negb (String.eqb s EmptyString)
  | None => false
  end.

(** [a or b] on [str | None]. *)
Definition py_or (a b : option string) : option string :=
  if truthy a then a else b.

(** [sep.join(parts)]. *)
Definition join (sep : string) (parts : list string) : string :=
  String.concat sep parts.

(** ** Data model *)

Record Context := { user_id : option string }.

Record User := { name : option string }.

Record ConversationInput := {
  context : option Context;
  language : string;
  device_id : option string;
  input_extra_system_prompt : option string
}.

Record LLMContext := {
  llm_platform : string;
  llm_user_context : option Context;
  llm_language : string;
  llm_assistant : string;
  llm_device_id : option string
}.

Record ConfigEntry := { entry_id : string }.

(** [hass.config.location_name] and the nested dictionary [hass.data]
    (domain, then entry id, then key), of which the function reads the
    Langfuse client.  The function tests the stored object for truth
    (line 70) and hands it on: the object is its identity and its truth
    value, [bool(langfuse_client)]. *)
Record LangfuseClient := {
  client_key : string;
  client_bool : bool
}.

Record HomeAssistant := {
  location_name : string;
  data : gmap string (gmap string (gmap string LangfuseClient))
}.

(** A Langfuse prompt object, returned for later correlation. *)
Definition PromptObject := string.

Definition Tool := string.

(** What awaiting a prompt gives: the text, or a pair of the Langfuse prompt
    object and the text. *)
Inductive PromptValue :=
| PromptStr (text : string)
| PromptTuple (prompt_object : PromptObject) (text : string).

Definition prompt_text (p : PromptValue) : string :=
  match p with
  | PromptStr text => text
  | PromptTuple _ text => text
  end.

Definition prompt_object_of (p : PromptValue) : option PromptObject :=
  match p with
  | PromptStr _ => None
  | PromptTuple o _ => Some o
  end.

Inductive IntentResponseErrorCode := NO_INTENT_MATCH | NO_VALID_TARGETS | FAILED_TO_HANDLE | UNKNOWN.

Record IntentResponse := {
  response_language : string;
  error_code : option IntentResponseErrorCode;
  speech : option string
}.

Definition async_set_error (r : IntentResponse) (code : IntentResponseErrorCode)
    (message : string) : IntentResponse :=
  {| response_language := response_language r;
     error_code := Some code;
     speech := Some message |}.

(** Exceptions, by the class that decides which handler takes them.
    [TemplateError] and [ConverseError] are subclasses of
    [HomeAssistantError] in Home Assistant; [OtherException] stands for any
    class that is not. *)
Inductive exn :=
| HomeAssistantError (message : string)
| TemplateError (message : string)
| ConverseError (message : string) (conversation_id : string) (response : IntentResponse)
| IndexError
| TypeError
| RuntimeError
| OtherException (message : string).

Definition isinstance_HomeAssistantError (e : exn) : bool :=
  match e with
  | HomeAssistantError _ | TemplateError _ | ConverseError _ _ _ => true
  | IndexError | TypeError | RuntimeError | OtherException _ => false
  end.

Definition isinstance_TemplateError (e : exn) : bool :=
  match e with
  | TemplateError _ => true
  | _ => false
  end.

Inductive Outcome (A : Type) :=
| Ok (a : A)
| Raise (e : exn).
Arguments Ok {A} a.
Arguments Raise {A} e.

(** The call returned. *)
Definition is_Ok {A} (r : Outcome A) : Prop :=
  match r with
  | Ok _ => True
  | Raise _ => False
  end.

(** [CustomLLMAPI(hass, user_name, conversation_config_entry=...)], with the
    client that [set_langfuse_client] attaches. *)
Record CustomLLMAPI := {
  custom_user_name : option string;
  conversation_config_entry : ConfigEntry;
  langfuse_client : option LangfuseClient
}.

Definition set_langfuse_client (a : CustomLLMAPI) (c : LangfuseClient) : CustomLLMAPI :=
  {| custom_user_name := custom_user_name a;
     conversation_config_entry := conversation_config_entry a;
     langfuse_client := Some c |}.

(** The [api] of an instance: [isinstance(api.api, CustomLLMAPI)] is a test
    of the constructor. *)
Inductive API :=
| CustomAPI (a : CustomLLMAPI)
| RegisteredAPI (id : string).

Definition isinstance_CustomLLMAPI (a : API) : bool :=
  match a with
  | CustomAPI _ => true
  | RegisteredAPI _ => false
  end.

Inductive Serializer :=
| selector_serializer
| provider_serializer (id : string).

(** The [api_prompt] attribute.  On an instance that a provider returned it
    is an awaitable: [outcome n] is what the await gives after [n] earlier
    awaits of the same attribute.  On the instance the function builds
    itself it is the prompt string, and awaiting a string is a
    [TypeError]. *)
Inductive ApiPrompt :=
| Awaitable (outcome : nat → Outcome PromptValue)
| PromptText (text : string).

(** An awaitable that gives [r] at every await (a future, or a property that
    makes a new coroutine at each access). *)
Definition reawaitable (r : Outcome PromptValue) : ApiPrompt :=
  Awaitable (λ _, r).

(** A coroutine object: it runs once, and awaiting it again is a
    [RuntimeError] (cannot reuse already awaited coroutine). *)
Definition coroutine (r : Outcome PromptValue) : ApiPrompt :=
  Awaitable (λ n, match n with 0 => r | S _ => Raise RuntimeError end).

Record APIInstance := {
  api : API;
  api_prompt : ApiPrompt;
  llm_context : LLMContext;
  tools : list Tool;
  custom_serializer : option Serializer
}.

Inductive Content :=
| SystemContent (content : string)
| UserContent (content : string)
| AssistantContent (content : string)
| ToolResultContent (tool_name : string) (tool_result : string).

Record ChatLog := {
  conversation_id : string;
  content : list Content;
  extra_system_prompt : option string;
  llm_api : option APIInstance
}.

Record PromptContext := {
  ha_name : string;
  prompt_user_name : option string
}.

(** ** What the function sends out *)

Inductive Level := DEBUG | ERROR.

Inductive LogArg :=
| AStr (s : string)
| AInt (n : nat)
| AExn (e : exn).

(** The awaited collaborators. *)
Inductive Call :=
| auth_async_get_user (uid : string)
| llm_async_get_api (api_name : string) (ctx : LLMContext)
| custom_async_get_api_instance (a : CustomLLMAPI) (ctx : LLMContext)
| await_api_prompt (llm_api : APIInstance) (nth : nat)
| prompt_manager_async_get_base_prompt (pc : PromptContext) (entry : ConfigEntry).

Inductive Event :=
| Log (level : Level) (format : string) (args : list LogArg)
| Await (c : Call)
| update_current_trace (tags : list string)
| async_conversation_trace_append (messages : list Content) (trace_tools : option (list Tool)).

(** ** The monad of the coroutine *)

Record Run (A : Type) := {
  result : Outcome A;
  chat_log_after : ChatLog;
  emitted : list Event
}.
Arguments result {A} r.
Arguments chat_log_after {A} r.
Arguments emitted {A} r.

Definition M (A : Type) : Type := ChatLog → Run A.

Global Instance M_ret : MRet M := λ A a chat_log,
  {| result := Ok a; chat_log_after := chat_log; emitted := [] |}.

Global Instance M_bind : MBind M := λ A B k c chat_log,
  let r := c chat_log in
  match result r with
  | Ok a =>
      let r' := k a (chat_log_after r) in
      {| result := result r';
         chat_log_after := chat_log_after r';
         emitted := emitted r ++ emitted r' |}
  | Raise e =>
      {| result := Raise e; chat_log_after := chat_log_after r; emitted := emitted r |}
  end.

(** [raise e]. *)
Definition raise {A} (e : exn) : M A := λ chat_log,
  {| result := Raise e; chat_log_after := chat_log; emitted := [] |}.

Definition emit (ev : Event) : M unit := λ chat_log,
  {| result := Ok tt; chat_log_after := chat_log; emitted := [ev] |}.

Definition LOGGER_debug (format : string) (args : list LogArg) : M unit :=
  emit (Log DEBUG format args).

Definition LOGGER_error (format : string) (args : list LogArg) : M unit :=
  emit (Log ERROR format args).

(** [await] of a collaborator whose outcome is [r]. *)
Definition await {A} (c : Call) (r : Outcome A) : M A := λ chat_log,
  {| result := r; chat_log_after := chat_log; emitted := [Await c] |}.

(** The body of a [try]: its outcome is handed to the handlers. *)
Definition try {A} (c : M A) : M (Outcome A) := λ chat_log,
  let r := c chat_log in
  {| result := Ok (result r); chat_log_after := chat_log_after r; emitted := emitted r |}.

Definition read_chat_log : M ChatLog := λ chat_log,
  {| result := Ok chat_log; chat_log_after := chat_log; emitted := [] |}.

Definition write_chat_log (chat_log' : ChatLog) : M unit := λ _,
  {| result := Ok tt; chat_log_after := chat_log'; emitted := [] |}.

(** [chat_log.llm_api = v] *)
Definition set_llm_api (v : option APIInstance) : M unit :=
  chat_log ← read_chat_log;
  write_chat_log {| conversation_id := conversation_id chat_log;
                    content := content chat_log;
                    extra_system_prompt := extra_system_prompt chat_log;
                    llm_api := v |}.

(** [chat_log.extra_system_prompt = v] *)
Definition set_extra_system_prompt (v : option string) : M unit :=
  chat_log ← read_chat_log;
  write_chat_log {| conversation_id := conversation_id chat_log;
                    content := content chat_log;
                    extra_system_prompt := v;
                    llm_api := llm_api chat_log |}.

(** [chat_log.content[0] = v]: an [IndexError] on the empty list. *)
Definition set_content_0 (v : Content) : M unit :=
  chat_log ← read_chat_log;
  match content chat_log with
  | [] => raise IndexError
  | _ :: _ =>
      write_chat_log {| conversation_id := conversation_id chat_log;
                        content := <[0:=v]> (content chat_log);
                        extra_system_prompt := extra_system_prompt chat_log;
                        llm_api := llm_api chat_log |}
  end.

(** [await llm_api.api_prompt], after [nth] earlier awaits of it. *)
Definition await_prompt (llm_api : APIInstance) (nth : nat) : M PromptValue :=
  match api_prompt llm_api with
  | Awaitable outcome => await (await_api_prompt llm_api nth) (outcome nth)
  | PromptText _ => raise TypeError
  end.

(** ** The collaborators and constants the module imports

    [const.py], [api.py] and [prompt_manager.py] are not part of the source
    under study, and the user store and the API registry belong to Home
    Assistant: the constants and the outcome of every awaited call are
    parameters. *)
Record Host := {
  DOMAIN : string;
  LLM_API_ID : string;
  (** [hass.auth.async_get_user(user_id)] *)
  async_get_user : string → Outcome (option User);
  (** [llm.async_get_api(hass, api_name, llm_context)] *)
  async_get_api : string → LLMContext → Outcome APIInstance;
  (** [CustomLLMAPI.async_get_api_instance(llm_context)] *)
  async_get_api_instance : CustomLLMAPI → LLMContext → Outcome APIInstance;
  (** [prompt_manager.async_get_base_prompt(prompt_context, config_entry)] *)
  async_get_base_prompt : PromptContext → ConfigEntry → Outcome PromptValue
}.

(** The three accumulators of the collection loop. *)
Record Collected := {
  api_instances : list APIInstance;
  all_tools : list Tool;
  api_prompts : list string
}.

Definition nothing_collected : Collected :=
  {| api_instances := []; all_tools := []; api_prompts := [] |}.

(** ** [async_update_llm_data] *)

Section async_update_llm_data.
Variable host : Host.
Variable hass : HomeAssistant.
Variable user_input : ConversationInput.
Variable config_entry : ConfigEntry.

(** Lines 36-42. *)
Definition new_llm_context : LLMContext :=
  {| llm_platform := DOMAIN host;
     llm_user_context := context user_input;
     llm_language := language user_input;
     llm_assistant := "conversation";
     llm_device_id := device_id user_input |}.

(** Lines 44-53: the user is looked up only for a context with a
    non-empty user id. *)
Definition get_user_name : M (option string) :=
  match context user_input with
  | Some ctx =>
      if truthy (user_id ctx) then
        match user_id ctx with
        | Some uid =>
            user ← await (auth_async_get_user uid) (async_get_user host uid);
            match user with
            | Some user => mret (name user)
            | None => mret None
            end
        | None => mret None
        end
      else mret None
  | None => mret None
  end.

(** [hass.data.get(DOMAIN, {}).get(config_entry.entry_id, {}).get("langfuse_client")] *)
Definition hass_langfuse_client : option LangfuseClient :=
  default ∅ (default ∅ (data hass !! DOMAIN host) !! entry_id config_entry)
    !! "langfuse_client".

Section with_user_name.
Variable user_name : option string.

(** Lines 63-84: the instance for one name.  The client is attached when
    the looked-up object is truthy; a missing key gives [None], which is
    not. *)
Definition get_llm_api (api_name : string) : M APIInstance :=
  if String.eqb api_name (LLM_API_ID host) then
    LOGGER_debug "Using Custom LLM API for request" [];;
    let api_instance :=
      {| custom_user_name := user_name;
         conversation_config_entry := config_entry;
         langfuse_client := None |} in
    api_instance ←
      match hass_langfuse_client with
      | Some client =>
          if client_bool client then
            LOGGER_debug "Setting langfuse client for Custom LLM API" [];;
            mret (set_langfuse_client api_instance client)
          else mret api_instance
      | None => mret api_instance
      end;
    await (custom_async_get_api_instance api_instance new_llm_context)
          (async_get_api_instance host api_instance new_llm_context)
  else
    LOGGER_debug "Using LLM API with ID %s" [AStr api_name];;
    await (llm_async_get_api api_name new_llm_context)
          (async_get_api host api_name new_llm_context).

(** Lines 97-105: the handler of the loop body. *)
Definition except_HomeAssistantError (api_name : string) (err : exn)
    (acc : Collected) : M Collected :=
  if isinstance_HomeAssistantError err then
    LOGGER_error "Error getting LLM API %s for %s: %s"
                 [AStr api_name; AStr (DOMAIN host); AExn err];;
    mret acc
  else raise err.

(** Lines 62-105: one round of the loop.  The instance and its tools
    are appended before the prompt is awaited, so they stay when the
    handler takes an error of the prompt.  The instance is new, and line 90
    is the first await of its prompt. *)
Definition collect_api (acc : Collected) (api_name : string) : M Collected :=
  r ← try (get_llm_api api_name);
  match r with
  | Raise err => except_HomeAssistantError api_name err acc
  | Ok llm_api =>
      let acc :=
        {| api_instances := api_instances acc ++ [llm_api];
           all_tools := all_tools acc ++ tools llm_api;
           api_prompts := api_prompts acc |} in
      r ← try (await_prompt llm_api 0);
      match r with
      | Raise err => except_HomeAssistantError api_name err acc
      | Ok api_prompt =>
          mret {| api_instances := api_instances acc;
                  all_tools := all_tools acc;
                  api_prompts := api_prompts acc ++ [prompt_text api_prompt] |}
      end
  end.

(** Line 61: [for api_name in llm_api_names]. *)
Fixpoint for_api_names (llm_api_names : list string) (acc : Collected) : M Collected :=
  match llm_api_names with
  | [] => mret acc
  | api_name :: rest =>
      acc ← collect_api acc api_name;
      for_api_names rest acc
  end.

(** Lines 55-105: [if llm_api_names:] is false for [None] and for the
    empty list. *)
Definition collect_apis (llm_api_names : option (list string)) : M Collected :=
  match llm_api_names with
  | Some (api_name :: rest) => for_api_names (api_name :: rest) nothing_collected
  | Some [] | None => mret nothing_collected
  end.

(** Lines 155-166: the handler of the prompt block. *)
Definition except_TemplateError {A} (err : exn) : M A :=
  if isinstance_TemplateError err then
    LOGGER_error "Error rendering prompt: %s" [AExn err];;
    let intent_response :=
      {| response_language := language user_input;
         error_code := None;
         speech := None |} in
    let intent_response :=
      async_set_error intent_response UNKNOWN
                      "Sorry, I had a problem with my template" in
    chat_log ← read_chat_log;
    raise (ConverseError "Error rendering prompt"
                         (conversation_id chat_log) intent_response)
  else raise err.

(** Lines 110-153: the body of the prompt block; it gives
    [(prompt_object, prompt)].  Line 124 awaits the prompt of the one
    collected instance, which line 90 has awaited: it is the second await
    of that attribute. *)
Definition prompt_block (acc : Collected) : M (option PromptObject * string) :=
  let prompt_context :=
    {| ha_name := location_name hass; prompt_user_name := user_name |} in
  let has_custom_api :=
    existsb (λ api_instance, isinstance_CustomLLMAPI (api api_instance))
            (api_instances acc) in
  if has_custom_api && (length (api_instances acc) =? 1) then
    match api_instances acc with
    | llm_api :: _ =>
        prompt ← await_prompt llm_api 1;
        match prompt with
        | PromptTuple prompt_object prompt =>
            LOGGER_debug "Retrieved Langfuse Prompt" [];;
            LOGGER_debug "LLM API prompt: %s" [AStr prompt];;
            mret (Some prompt_object, prompt)
        | PromptStr prompt =>
            LOGGER_debug "LLM API prompt: %s" [AStr prompt];;
            mret (None, prompt)
        end
    | [] => raise IndexError
    end
  else
    match api_instances acc with
    | [] =>
        prompt ← await (prompt_manager_async_get_base_prompt prompt_context config_entry)
                       (async_get_base_prompt host prompt_context config_entry);
        match prompt with
        | PromptTuple prompt_object prompt =>
            LOGGER_debug "Retrieved Basic Langfuse Prompt" [];;
            LOGGER_debug "Base prompt: %s" [AStr prompt];;
            mret (Some prompt_object, prompt)
        | PromptStr prompt =>
            LOGGER_debug "Base prompt: %s" [AStr prompt];;
            mret (None, prompt)
        end
    | _ :: _ =>
        base_prompt ← await (prompt_manager_async_get_base_prompt prompt_context config_entry)
                            (async_get_base_prompt host prompt_context config_entry);
        let '(prompt_object, base_prompt_text) :=
          match base_prompt with
          | PromptTuple prompt_object base_prompt_text => (Some prompt_object, base_prompt_text)
          | PromptStr base_prompt_text => (None, base_prompt_text)
          end in
        let prompt_parts := [base_prompt_text] ++ api_prompts acc in
        let prompt := join nl prompt_parts in
        LOGGER_debug "Combined prompt from %d APIs: %s"
                     [AInt (length (api_prompts acc)); AStr prompt];;
        mret (prompt_object, prompt)
    end.

(** Lines 107-166: [try: ... except TemplateError]. *)
Definition build_prompt (acc : Collected) : M (option PromptObject * string) :=
  r ← try (prompt_block acc);
  match r with
  | Ok v => mret v
  | Raise err => except_TemplateError err
  end.

(** Lines 179-198: the instance put on the chat log. *)
Definition combined_api_instance (acc : Collected) (prompt : string) : M (option APIInstance) :=
  match api_instances acc with
  | [] => mret None
  | [api_instance] => mret (Some api_instance)
  | first :: _ =>
      LOGGER_debug "Combining tools from %d APIs: %d total tools"
                   [AInt (length (api_instances acc)); AInt (length (all_tools acc))];;
      mret (Some {| api := api first;
                    api_prompt := PromptText prompt;
                    llm_context := new_llm_context;
                    tools := all_tools acc;
                    custom_serializer := Some selector_serializer |})
  end.

(** Lines 168-209. *)
Definition publish (acc : Collected) (prompt_object : option PromptObject)
    (prompt : string) : M (option PromptObject) :=
  chat_log ← read_chat_log;
  let extra_system_prompt :=
    py_or (input_extra_system_prompt user_input) (extra_system_prompt chat_log) in
  prompt ←
    match extra_system_prompt with
    | Some extra =>
        if truthy extra_system_prompt then
          LOGGER_debug "Using extra system prompt: %s" [AStr extra];;
          let prompt := prompt +:+ nl +:+ extra in
          emit (update_current_trace ["extra_system_prompt"]);;
          mret prompt
        else mret prompt
    | None => mret prompt
    end;
  api_instance ← combined_api_instance acc prompt;
  set_llm_api api_instance;;
  set_extra_system_prompt extra_system_prompt;;
  set_content_0 (SystemContent prompt);;
  chat_log ← read_chat_log;
  emit (async_conversation_trace_append
          (content chat_log)
          (match llm_api chat_log with
           | Some llm_api => Some (tools llm_api)
           | None => None
           end));;
  mret prompt_object.
End with_user_name.

Definition async_update_llm_data (llm_api_names : option (list string))
    : M (option PromptObject) :=
  user_name ← get_user_name;
  acc ← collect_apis user_name llm_api_names;
  '(prompt_object, prompt) ← build_prompt user_name acc;
  publish acc prompt_object prompt.

End async_update_llm_data.

(** ** The vocabulary of the properties *)

(** A computation that only reads the chat log. *)
Definition read_only {A} (c : M A) : Prop :=
  ∀ chat_log, chat_log_after (c chat_log) = chat_log.

(** A computation all of whose events satisfy [P]. *)
Definition emits {A} (P : Event → Prop) (c : M A) : Prop :=
  ∀ chat_log, Forall P (emitted (c chat_log)).

Global Instance is_Ok_dec {A} (r : Outcome A) : Decision (is_Ok r).
Proof. destruct r; simpl; apply _. Defined.

Section vocabulary.
Variable host : Host.
Variable hass : HomeAssistant.
Variable user_input : ConversationInput.
Variable config_entry : ConfigEntry.

Section for_user_name.
Variable user_name : option string.

(** The [CustomLLMAPI] object the loop builds for the reserved name. *)
Definition custom_llm_api : CustomLLMAPI :=
  let api_instance :=
    {| custom_user_name := user_name;
       conversation_config_entry := config_entry;
       langfuse_client := None |} in
  match hass_langfuse_client host hass config_entry with
  | Some client =>
      if client_bool client then set_langfuse_client api_instance client
      else api_instance
  | None => api_instance
  end.

(** The outcome of resolving one name, as the collaborators give it. *)
Definition resolve (api_name : string) : Outcome APIInstance :=
  if String.eqb api_name (LLM_API_ID host)
  then async_get_api_instance host custom_llm_api
         (new_llm_context host user_input)
  else async_get_api host api_name (new_llm_context host user_input).

Definition resolved (api_name : string) : option APIInstance :=
  match resolve api_name with
  | Ok llm_api => Some llm_api
  | Raise _ => None
  end.

(** A name whose resolution raises a [HomeAssistantError]. *)
Definition resolution_fails (api_name : string) : Prop :=
  ∃ err, resolve api_name = Raise err ∧ isinstance_HomeAssistantError err = true.

(** What [await llm_api.api_prompt] gives after [nth] earlier awaits. *)
Definition awaited (llm_api : APIInstance) (nth : nat) : Outcome PromptValue :=
  match api_prompt llm_api with
  | Awaitable outcome => outcome nth
  | PromptText _ => Raise TypeError
  end.

(** The prompt fragment of a resolved provider, when awaiting it in the
    loop gives one. *)
Definition fragment (llm_api : APIInstance) : option string :=
  match awaited llm_api 0 with
  | Ok p => Some (prompt_text p)
  | Raise _ => None
  end.

(** What the loop sends out: log records and the awaited provider calls,
    never the base prompt and never a trace record. *)
Definition collection_event (ev : Event) : bool :=
  match ev with
  | Log _ _ _ => true
  | Await (llm_async_get_api _ _) => true
  | Await (custom_async_get_api_instance _ _) => true
  | Await (await_api_prompt _ _) => true
  | _ => false
  end.

(** The record the handler writes for a name. *)
Definition resolution_error_record (api_name : string) (err : exn) : Event :=
  Log ERROR "Error getting LLM API %s for %s: %s"
      [AStr api_name; AStr (DOMAIN host); AExn err].

(** The rendering of the base prompt, as the prompt manager gives it. *)
Definition base_prompt : Outcome PromptValue :=
  async_get_base_prompt host
    {| ha_name := location_name hass; prompt_user_name := user_name |} config_entry.

Definition renders_base_prompt (ev : Event) : bool :=
  match ev with
  | Await (prompt_manager_async_get_base_prompt _ _) => true
  | _ => false
  end.

Definition trace_record (ev : Event) : bool :=
  match ev with
  | update_current_trace _ | async_conversation_trace_append _ _ => true
  | _ => false
  end.

(** The test of line 121 holds exactly for one instance of [CustomLLMAPI]. *)
Definition sole_custom_api (instances : list APIInstance) : Prop :=
  ∃ llm_api, instances = [llm_api] ∧ isinstance_CustomLLMAPI (api llm_api) = true.

(** The error of lines 157-166. *)
Definition template_problem (chat_log : ChatLog) : exn :=
  ConverseError "Error rendering prompt" (conversation_id chat_log)
    {| response_language := language user_input;
       error_code := Some UNKNOWN;
       speech := Some "Sorry, I had a problem with my template" |}.

(** The prompt after lines 168-176. *)
Definition with_extra_system_prompt (prompt : string) (extra : option string) : string :=
  match extra with
  | Some text => if truthy extra then prompt +:+ nl +:+ text else prompt
  | None => prompt
  end.

(** The instance that lines 179-198 put on the chat log. *)
Definition effective_api (acc : Collected) (prompt : string) : option APIInstance :=
  match api_instances acc with
  | [] => None
  | [api_instance] => Some api_instance
  | first :: _ =>
      Some {| api := api first;
              api_prompt := PromptText prompt;
              llm_context := new_llm_context host user_input;
              tools := all_tools acc;
              custom_serializer := Some selector_serializer |}
  end.

End for_user_name.

(** The turn reaches the prompt block with [acc] collected for
    [user_name]. *)
Definition collects (llm_api_names : option (list string)) (chat_log : ChatLog)
    (user_name : option string) (acc : Collected) : Prop :=
  result (get_user_name host user_input chat_log) = Ok user_name ∧
  result (collect_apis host hass user_input config_entry user_name llm_api_names chat_log) = Ok acc.

(** The extra system prompt the turn selects (lines 168-171). *)
Definition selected_extra_system_prompt (chat_log : ChatLog) : option string :=
  py_or (input_extra_system_prompt user_input) (extra_system_prompt chat_log).

End vocabulary.

(** ** The events by kind *)

Definition consults_user_store (ev : Event) : bool :=
  match ev with
  | Await (auth_async_get_user _) => true
  | _ => false
  end.

Definition awaits_api_prompt (ev : Event) : bool :=
  match ev with
  | Await (await_api_prompt _ _) => true
  | _ => false
  end.

(** The instance whose prompt an event awaits, and how many awaits of it
    came before. *)
Definition prompt_awaited_by (ev : Event) : option (APIInstance * nat) :=
  match ev with
  | Await (await_api_prompt llm_api nth) => Some (llm_api, nth)
  | _ => None
  end.

Definition conversation_trace (ev : Event) : bool :=
  match ev with
  | async_conversation_trace_append _ _ => true
  | _ => false
  end.

Definition tags_trace (ev : Event) : bool :=
  match ev with
  | update_current_trace _ => true
  | _ => false
  end.

(** The provider call of an event, when it is one (lines 77 and 80). *)
Definition resolution_of (ev : Event) : option Call :=
  match ev with
  | Await (llm_async_get_api api_name ctx) => Some (llm_async_get_api api_name ctx)
  | Await (custom_async_get_api_instance a ctx) =>
      Some (custom_async_get_api_instance a ctx)
  | _ => None
  end.

(** The [ERROR] record of the prompt block (line 156). *)
Definition rendering_error_record (ev : Event) : bool :=
  match ev with
  | Log ERROR format _ => String.eqb format "Error rendering prompt: %s"
  | _ => false
  end.

(** A computation whose result and events do not depend on the chat log. *)
Definition oblivious {A} (c : M A) : Prop :=
  ∀ chat_log chat_log',
    result (c chat_log) = result (c chat_log') ∧
    emitted (c chat_log) = emitted (c chat_log').

Section more_vocabulary.
Variable host : Host.
Variable hass : HomeAssistant.
Variable user_input : ConversationInput.
Variable config_entry : ConfigEntry.
Variable user_name : option string.

(** The call that resolves one name: the reserved name goes to a new
    [CustomLLMAPI], every other name to the registry. *)
Definition resolution_call (api_name : string) : Call :=
  if String.eqb api_name (LLM_API_ID host)
  then custom_async_get_api_instance
         (custom_llm_api host hass config_entry user_name)
         (new_llm_context host user_input)
  else llm_async_get_api api_name (new_llm_context host user_input).

(** A name that ends the loop with an exception: its resolution, or the
    await of its prompt, raises something that is not a
    [HomeAssistantError], or its prompt is a plain string, which cannot be
    awaited. *)
Definition breaks_loop (api_name : string) : Prop :=
  match resolve host hass user_input config_entry user_name api_name with
  | Raise err => isinstance_HomeAssistantError err = false
  | Ok llm_api =>
      match api_prompt llm_api with
      | Awaitable outcome =>
          match outcome 0 with
          | Ok _ => False
          | Raise err => isinstance_HomeAssistantError err = false
          end
      | PromptText _ => True
      end
  end.

(** The call that renders the base prompt (lines 131 and 141). *)
Definition base_prompt_call : Event :=
  Await (prompt_manager_async_get_base_prompt
           {| ha_name := location_name hass; prompt_user_name := user_name |}
           config_entry).

End more_vocabulary.

(** What lines 168-209 send out: the two records of a non-empty extra
    system prompt, the record of the combined tools, and the trace record,
    which is not reached on an empty list of messages. *)
Definition publication_events (host : Host) (user_input : ConversationInput)
    (acc : Collected) (prompt : string) (chat_log : ChatLog) : list Event :=
  let extra := selected_extra_system_prompt user_input chat_log in
  let final := with_extra_system_prompt prompt extra in
  match extra with
  | Some text =>
      if truthy extra
      then [Log DEBUG "Using extra system prompt: %s" [AStr text];
            update_current_trace ["extra_system_prompt"]]
      else []
  | None => []
  end ++
  match api_instances acc with
  | _ :: _ :: _ =>
      [Log DEBUG "Combining tools from %d APIs: %d total tools"
           [AInt (length (api_instances acc)); AInt (length (all_tools acc))]]
  | _ => []
  end ++
  match content chat_log with
  | [] => []
  | _ :: _ =>
      [async_conversation_trace_append
         (<[0:=SystemContent final]> (content chat_log))
         (tools <$> effective_api host user_input acc final)]
  end.

(** What the lookup of the user and the prompt block send out. *)
Definition lookup_event (ev : Event) : bool :=
  match ev with
  | Await (auth_async_get_user _) => true
  | _ => false
  end.

Definition prompt_event (ev : Event) : bool :=
  match ev with
  | Log _ _ _ => true
  | Await (await_api_prompt _ _) => true
  | Await (prompt_manager_async_get_base_prompt _ _) => true
  | _ => false
  end.

Definition publication_event (ev : Event) : bool :=
  match ev with
  | Log _ _ _ | update_current_trace _ | async_conversation_trace_append _ _ => true
  | _ => false
  end.


(** ** A household to run the function on *)

Module Household.

Definition kitchen_context : LLMContext :=
  {| llm_platform := "custom_conversation";
     llm_user_context := Some {| user_id := Some "u-1" |};
     llm_language := "en";
     llm_assistant := "conversation";
     llm_device_id := None |}.

(** The prompts of the house can be awaited again and give the same; the
    coroutine objects come further down. *)
Definition weather : APIInstance :=
  {| api := RegisteredAPI "weather";
     api_prompt := reawaitable (Ok (PromptStr "Tools: weather."));
     llm_context := kitchen_context;
     tools := ["get_forecast"; "get_temperature"];
     custom_serializer := None |}.

(** A provider that resolves and whose prompt cannot be awaited. *)
Definition calendar : APIInstance :=
  {| api := RegisteredAPI "calendar";
     api_prompt := reawaitable (Raise (HomeAssistantError "calendar offline"));
     llm_context := kitchen_context;
     tools := ["list_events"];
     custom_serializer := None |}.

Definition custom (a : CustomLLMAPI) : APIInstance :=
  {| api := CustomAPI a;
     api_prompt := reawaitable (Ok (PromptTuple "langfuse-7" "Custom complete prompt."));
     llm_context := kitchen_context;
     tools := ["HassTurnOn"; "get_forecast"];
     custom_serializer := Some selector_serializer |}.

Definition host : Host :=
  {| DOMAIN := "custom_conversation";
     LLM_API_ID := "custom-conversation";
     async_get_user := λ uid,
       if String.eqb uid "u-1" then Ok (Some {| name := Some "Ada" |}) else Ok None;
     async_get_api := λ api_name _,
       if String.eqb api_name "weather" then Ok weather
       else if String.eqb api_name "calendar" then Ok calendar
       else Raise (HomeAssistantError "API not found");
     async_get_api_instance := λ a _, Ok (custom a);
     async_get_base_prompt := λ _ _, Ok (PromptStr "Base.") |}.

(** The same house with a broken base template. *)
Definition host_with_broken_template : Host :=
  {| DOMAIN := DOMAIN host;
     LLM_API_ID := LLM_API_ID host;
     async_get_user := async_get_user host;
     async_get_api := async_get_api host;
     async_get_api_instance := async_get_api_instance host;
     async_get_base_prompt := λ _ _, Raise (TemplateError "unexpected end of template") |}.

(** The same house where the prompt of the custom API cannot be awaited. *)
Definition host_with_failing_custom_prompt : Host :=
  {| DOMAIN := DOMAIN host;
     LLM_API_ID := LLM_API_ID host;
     async_get_user := async_get_user host;
     async_get_api := async_get_api host;
     async_get_api_instance := λ a _,
       Ok {| api := CustomAPI a;
             api_prompt := reawaitable (Raise (HomeAssistantError "langfuse unreachable"));
             llm_context := kitchen_context;
             tools := ["HassTurnOn"];
             custom_serializer := Some selector_serializer |};
     async_get_base_prompt := async_get_base_prompt host |}.

Definition hass : HomeAssistant :=
  {| location_name := "Home"; data := ∅ |}.

Definition entry : ConfigEntry := {| entry_id := "entry-1" |}.

Definition question (extra : option string) : ConversationInput :=
  {| context := Some {| user_id := Some "u-1" |};
     language := "en";
     device_id := None;
     input_extra_system_prompt := extra |}.

Definition chat (stored_extra : option string) : ChatLog :=
  {| conversation_id := "conv-42";
     content := [SystemContent "placeholder"; UserContent "Will it rain?"];
     extra_system_prompt := stored_extra;
     llm_api := None |}.

Definition empty_chat : ChatLog :=
  {| conversation_id := "conv-43";
     content := [];
     extra_system_prompt := None;
     llm_api := None |}.

Definition ada_custom_api : CustomLLMAPI :=
  {| custom_user_name := Some "Ada";
     conversation_config_entry := entry;
     langfuse_client := None |}.

Definition custom_and_weather : Collected :=
  {| api_instances := [custom ada_custom_api; weather];
     all_tools := ["HassTurnOn"; "get_forecast"; "get_forecast"; "get_temperature"];
     api_prompts := ["Custom complete prompt."; "Tools: weather."] |}.

Definition custom_alone : Collected :=
  {| api_instances := [custom ada_custom_api];
     all_tools := ["HassTurnOn"; "get_forecast"];
     api_prompts := ["Custom complete prompt."] |}.

Definition calendar_and_weather : Collected :=
  {| api_instances := [calendar; weather];
     all_tools := ["list_events"; "get_forecast"; "get_temperature"];
     api_prompts := ["Tools: weather."] |}.

Definition failing_custom : APIInstance :=
  {| api := CustomAPI ada_custom_api;
     api_prompt := reawaitable (Raise (HomeAssistantError "langfuse unreachable"));
     llm_context := kitchen_context;
     tools := ["HassTurnOn"];
     custom_serializer := Some selector_serializer |}.

Definition failing_custom_alone : Collected :=
  {| api_instances := [failing_custom];
     all_tools := ["HassTurnOn"];
     api_prompts := [] |}.

Definition weather_alone : Collected :=
  {| api_instances := [weather];
     all_tools := ["get_forecast"; "get_temperature"];
     api_prompts := ["Tools: weather."] |}.

(** The same house where the prompt manager cannot be reached. *)
Definition host_with_offline_prompt_manager : Host :=
  {| DOMAIN := DOMAIN host;
     LLM_API_ID := LLM_API_ID host;
     async_get_user := async_get_user host;
     async_get_api := async_get_api host;
     async_get_api_instance := async_get_api_instance host;
     async_get_base_prompt := λ _ _, Raise (HomeAssistantError "prompt manager offline") |}.

Definition templated_custom : APIInstance :=
  {| api := CustomAPI ada_custom_api;
     api_prompt := reawaitable (Raise (TemplateError "undefined variable"));
     llm_context := kitchen_context;
     tools := ["HassTurnOn"];
     custom_serializer := Some selector_serializer |}.

(** The same house where the prompt of the custom API has a broken
    template. *)
Definition host_with_broken_custom_template : Host :=
  {| DOMAIN := DOMAIN host;
     LLM_API_ID := LLM_API_ID host;
     async_get_user := async_get_user host;
     async_get_api := async_get_api host;
     async_get_api_instance := λ a _,
       Ok {| api := CustomAPI a;
             api_prompt := reawaitable (Raise (TemplateError "undefined variable"));
             llm_context := kitchen_context;
             tools := ["HassTurnOn"];
             custom_serializer := Some selector_serializer |};
     async_get_base_prompt := async_get_base_prompt host |}.

Definition templated_custom_alone : Collected :=
  {| api_instances := [templated_custom];
     all_tools := ["HassTurnOn"];
     api_prompts := [] |}.

(** The custom API with its prompt as a coroutine object. *)
Definition custom_coroutine (a : CustomLLMAPI) : APIInstance :=
  {| api := CustomAPI a;
     api_prompt := coroutine (Ok (PromptTuple "langfuse-7" "Custom complete prompt."));
     llm_context := kitchen_context;
     tools := ["HassTurnOn"; "get_forecast"];
     custom_serializer := Some selector_serializer |}.

(** The same house where the custom API hands out that instance. *)
Definition host_with_coroutine_prompt : Host :=
  {| DOMAIN := DOMAIN host;
     LLM_API_ID := LLM_API_ID host;
     async_get_user := async_get_user host;
     async_get_api := async_get_api host;
     async_get_api_instance := λ a _, Ok (custom_coroutine a);
     async_get_base_prompt := async_get_base_prompt host |}.

Definition custom_coroutine_alone : Collected :=
  {| api_instances := [custom_coroutine ada_custom_api];
     all_tools := ["HassTurnOn"; "get_forecast"];
     api_prompts := ["Custom complete prompt."] |}.

(** The custom API with a coroutine object that fails on a broken
    template when it runs. *)
Definition templated_coroutine : APIInstance :=
  {| api := CustomAPI ada_custom_api;
     api_prompt := coroutine (Raise (TemplateError "undefined variable"));
     llm_context := kitchen_context;
     tools := ["HassTurnOn"];
     custom_serializer := Some selector_serializer |}.

Definition host_with_broken_coroutine_template : Host :=
  {| DOMAIN := DOMAIN host;
     LLM_API_ID := LLM_API_ID host;
     async_get_user := async_get_user host;
     async_get_api := async_get_api host;
     async_get_api_instance := λ a _,
       Ok {| api := CustomAPI a;
             api_prompt := coroutine (Raise (TemplateError "undefined variable"));
             llm_context := kitchen_context;
             tools := ["HassTurnOn"];
             custom_serializer := Some selector_serializer |};
     async_get_base_prompt := async_get_base_prompt host |}.

Definition templated_coroutine_alone : Collected :=
  {| api_instances := [templated_coroutine];
     all_tools := ["HassTurnOn"];
     api_prompts := [] |}.

(** A Langfuse client, and a stored object that tests false. *)
Definition langfuse : LangfuseClient :=
  {| client_key := "pk-lf-1"; client_bool := true |}.

Definition disabled_langfuse : LangfuseClient :=
  {| client_key := "disabled"; client_bool := false |}.

Definition hass_with (stored : LangfuseClient) : HomeAssistant :=
  {| location_name := "Home";
     data := {[ "custom_conversation" :=
                  {[ "entry-1" := {[ "langfuse_client" := stored ]} ]} ]} |}.

End Household.

(** ** Reading a run *)

Lemma bind_run {A B} (c : M A) (k : A → M B) (chat_log : ChatLog) :
  (c ≫= k) chat_log =
  match result (c chat_log) with
  | Ok a =>
      {| result := result (k a (chat_log_after (c chat_log)));
         chat_log_after := chat_log_after (k a (chat_log_after (c chat_log)));
         emitted := emitted (c chat_log) ++ emitted (k a (chat_log_after (c chat_log))) |}
  | Raise e =>
      {| result := Raise e;
         chat_log_after := chat_log_after (c chat_log);
         emitted := emitted (c chat_log) |}
  end.
Proof. reflexivity. Qed.

Lemma read_only_bind {A B} (c : M A) (k : A → M B) :
  read_only c → (∀ a, read_only (k a)) → read_only (c ≫= k).
Proof.
  intros Hc Hk chat_log. rewrite bind_run.
  destruct (result (c chat_log)); simpl; [by rewrite Hk, Hc | apply Hc].
Qed.

Lemma read_only_try {A} (c : M A) : read_only c → read_only (try c).
Proof. intros Hc chat_log. apply Hc. Qed.

Lemma read_only_ret {A} (a : A) : read_only (mret a).
Proof. done. Qed.

Lemma read_only_raise {A} (e : exn) : read_only (@raise A e).
Proof. done. Qed.

Lemma read_only_emit (ev : Event) : read_only (emit ev).
Proof. done. Qed.

Lemma read_only_await {A} (c : Call) (r : Outcome A) : read_only (await c r).
Proof. done. Qed.

Lemma read_only_read : read_only read_chat_log.
Proof. done. Qed.

Create HintDb read_only.
#[export] Hint Resolve read_only_ret read_only_raise read_only_emit read_only_await
  read_only_read read_only_try : read_only.

Ltac read_only :=
  repeat first
    [ apply read_only_bind; [| intros ?]
    | progress auto with read_only
    | match goal with
      | |- read_only (match ?x with _ => _ end) => destruct x
      | |- read_only (if ?b then _ else _) => destruct b
      | |- read_only (let '(_, _) := ?x in _) => destruct x
      end ].

Lemma emits_bind {A B} P (c : M A) (k : A → M B) :
  emits P c → (∀ a, emits P (k a)) → emits P (c ≫= k).
Proof.
  intros Hc Hk chat_log. rewrite bind_run.
  destruct (result (c chat_log)); simpl; [|apply Hc].
  apply Forall_app; split; [apply Hc | apply Hk].
Qed.

Lemma emits_ret {A} P (a : A) : emits P (mret a).
Proof. intros chat_log. constructor. Qed.

Lemma emits_raise {A} P (e : exn) : emits P (@raise A e).
Proof. intros chat_log. constructor. Qed.

Lemma emits_read P : emits P read_chat_log.
Proof. intros chat_log. constructor. Qed.

Lemma emits_write P chat_log' : emits P (write_chat_log chat_log').
Proof. intros chat_log. constructor. Qed.

Lemma emits_emit P ev : P ev → emits P (emit ev).
Proof. intros Hev chat_log. by repeat constructor. Qed.

Lemma emits_await {A} P c (r : Outcome A) : P (Await c) → emits P (await c r).
Proof. intros Hev chat_log. by repeat constructor. Qed.

Lemma emits_try {A} P (c : M A) : emits P c → emits P (try c).
Proof. intros Hc chat_log. apply Hc. Qed.

Ltac emits :=
  repeat match goal with
         | |- emits _ (_ ≫= _) => apply emits_bind; [| intros ?]
         | |- emits _ (mret _) => apply emits_ret
         | |- emits _ (raise _) => apply emits_raise
         | |- emits _ read_chat_log => apply emits_read
         | |- emits _ (write_chat_log _) => apply emits_write
         | |- emits _ (try _) => apply emits_try
         | |- emits _ (emit _) => apply emits_emit; done
         | |- emits _ (await _ _) => apply emits_await; done
         | |- emits _ (match ?x with _ => _ end) => destruct x
         | |- emits _ (if ?b then _ else _) => destruct b
         end.

(** [omap] on a list that starts with a kept or a dropped element. *)
Lemma omap_cons_Some {A B} (f : A → option B) x y l :
  f x = Some y → omap f (x :: l) = y :: omap f l.
Proof. intros H. simpl. by rewrite H. Qed.

Lemma omap_cons_None {A B} (f : A → option B) x l :
  f x = None → omap f (x :: l) = omap f l.
Proof. intros H. simpl. by rewrite H. Qed.

Lemma omap_length_le {A B} (f : A → option B) l :
  length (omap f l) ≤ length l.
Proof.
  induction l as [|x l IH]; [done|].
  destruct (f x) as [y|] eqn:Hfx.
  - rewrite (omap_cons_Some _ _ _ _ Hfx). simpl. lia.
  - rewrite (omap_cons_None _ _ _ Hfx). simpl. lia.
Qed.

Lemma elem_of_concat {A} (x : A) l ls :
  x ∈ l → l ∈ ls → x ∈ concat ls.
Proof.
  rewrite !list_elem_of_In. intros Hx Hl. apply in_concat. by exists l.
Qed.

(** ** The collection loop *)

Section collection.
Variable host : Host.
Variable hass : HomeAssistant.
Variable user_input : ConversationInput.
Variable config_entry : ConfigEntry.
Variable user_name : option string.

Abbreviation custom_llm_api := (custom_llm_api host hass config_entry user_name).
Abbreviation resolve := (resolve host hass user_input config_entry user_name).
Abbreviation resolved := (resolved host hass user_input config_entry user_name).
Abbreviation resolution_error_record := (resolution_error_record host).

Abbreviation get_llm_api := (get_llm_api host hass user_input config_entry user_name).
Abbreviation collect_api := (collect_api host hass user_input config_entry user_name).
Abbreviation for_api_names := (for_api_names host hass user_input config_entry user_name).
Abbreviation collect_apis := (collect_apis host hass user_input config_entry user_name).

Lemma get_llm_api_result api_name chat_log :
  result (get_llm_api api_name chat_log) = resolve api_name.
Proof.
  unfold get_llm_api, resolve, custom_llm_api.
  destruct (String.eqb _ _); [| done].
  by destruct (hass_langfuse_client _ _ _) as [[key []]|].
Qed.

Lemma get_llm_api_read_only api_name : read_only (get_llm_api api_name).
Proof. unfold get_llm_api, LOGGER_debug. read_only. Qed.

Lemma await_prompt_read_only llm_api nth : read_only (await_prompt llm_api nth).
Proof. unfold await_prompt. read_only. Qed.

Lemma await_prompt_result llm_api nth chat_log :
  result (await_prompt llm_api nth chat_log) = awaited llm_api nth.
Proof. unfold await_prompt, awaited. by destruct (api_prompt llm_api). Qed.

Lemma collect_api_read_only acc api_name : read_only (collect_api acc api_name).
Proof.
  unfold collect_api, except_HomeAssistantError, LOGGER_error.
  pose proof get_llm_api_read_only. pose proof await_prompt_read_only.
  read_only.
Qed.

Lemma for_api_names_read_only names acc : read_only (for_api_names names acc).
Proof.
  revert acc. induction names as [|api_name names IH]; intros acc; simpl.
  - apply read_only_ret.
  - apply read_only_bind; [apply collect_api_read_only | done].
Qed.

Lemma collect_apis_read_only llm_api_names : read_only (collect_apis llm_api_names).
Proof.
  destruct llm_api_names as [[|api_name names]|]; try apply read_only_ret.
  apply for_api_names_read_only.
Qed.
(** One round of the loop, by the outcome of the two awaited calls. *)
Lemma collect_api_result acc api_name chat_log :
  result (collect_api acc api_name chat_log) =
  match resolve api_name with
  | Raise err => if isinstance_HomeAssistantError err then Ok acc else Raise err
  | Ok llm_api =>
      let acc' :=
        {| api_instances := api_instances acc ++ [llm_api];
           all_tools := all_tools acc ++ tools llm_api;
           api_prompts := api_prompts acc |} in
      match awaited llm_api 0 with
      | Ok p =>
          Ok {| api_instances := api_instances acc';
                all_tools := all_tools acc';
                api_prompts := api_prompts acc' ++ [prompt_text p] |}
      | Raise err =>
          if isinstance_HomeAssistantError err then Ok acc' else Raise err
      end
  end.
Proof.
  unfold collect_api. rewrite bind_run. simpl.
  rewrite get_llm_api_result.
  destruct (resolve api_name) as [llm_api|err]; simpl.
  - rewrite await_prompt_result.
    destruct (awaited llm_api 0) as [p|err]; simpl; try done.
    unfold except_HomeAssistantError.
    by destruct (isinstance_HomeAssistantError err).
  - unfold except_HomeAssistantError.
    by destruct (isinstance_HomeAssistantError err).
Qed.

(** The state of the accumulators after the loop: the instances are the
    successful resolutions in the order of the names, the tools are theirs,
    and the prompts are the fragments that could be awaited.  Only an
    exception that is not a [HomeAssistantError] leaves the loop. *)
Lemma for_api_names_result names acc chat_log :
  match result (for_api_names names acc chat_log) with
  | Ok acc' =>
      api_instances acc' = api_instances acc ++ omap resolved names ∧
      all_tools acc' = all_tools acc ++ concat (tools <$> omap resolved names) ∧
      api_prompts acc' = api_prompts acc ++ omap fragment (omap resolved names)
  | Raise err => isinstance_HomeAssistantError err = false
  end.
Proof.
  revert acc chat_log.
  induction names as [|api_name names IH]; intros acc chat_log.
  { simpl. by rewrite !app_nil_r. }
  cbn [for_api_names]. rewrite bind_run.
  pose proof (collect_api_result acc api_name chat_log) as Hstep.
  destruct (result (collect_api acc api_name chat_log)) as [acc1|err]; cbn [result].
  - specialize (IH acc1 (chat_log_after (collect_api acc api_name chat_log))).
    destruct (result (for_api_names names acc1 _)) as [acc2|err]; [|done].
    destruct IH as (-> & -> & ->).
    destruct (resolve api_name) as [llm_api|err] eqn:Hres.
    + assert (resolved api_name = Some llm_api) as Hsome
        by (unfold resolved; by rewrite Hres).
      rewrite (omap_cons_Some _ _ _ _ Hsome). cbn [fmap list_fmap concat].
      cbn zeta in Hstep.
      destruct (awaited llm_api 0) as [p|err] eqn:Hprompt.
      * injection Hstep as ->. cbn [api_instances all_tools api_prompts].
        rewrite (omap_cons_Some fragment llm_api (prompt_text p))
          by (unfold fragment; by rewrite Hprompt).
        by rewrite <- !(assoc_L (++)).
      * destruct (isinstance_HomeAssistantError err); [|done].
        injection Hstep as ->. cbn [api_instances all_tools api_prompts].
        rewrite (omap_cons_None fragment llm_api)
          by (unfold fragment; by rewrite Hprompt).
        by rewrite <- !(assoc_L (++)).
    + destruct (isinstance_HomeAssistantError err); [|done].
      injection Hstep as ->.
      by rewrite (omap_cons_None resolved api_name)
        by (unfold resolved; by rewrite Hres).
  - destruct (resolve api_name) as [llm_api|err'].
    + cbn zeta in Hstep. destruct (awaited llm_api 0) as [p|err'].
      * done.
      * destruct (isinstance_HomeAssistantError err') eqn:He; [done|congruence].
    + destruct (isinstance_HomeAssistantError err') eqn:He; [done|congruence].
Qed.

(** The same for the whole of lines 55-105, where [None] and the empty
    list skip the loop. *)
Lemma collect_apis_result llm_api_names chat_log :
  match result (collect_apis llm_api_names chat_log) with
  | Ok acc =>
      api_instances acc = omap resolved (default [] llm_api_names) ∧
      all_tools acc = concat (tools <$> api_instances acc) ∧
      api_prompts acc = omap fragment (api_instances acc)
  | Raise err => isinstance_HomeAssistantError err = false
  end.
Proof.
  destruct llm_api_names as [[|api_name names]|]; try done.
  unfold collect_apis.
  pose proof (for_api_names_result (api_name :: names) nothing_collected chat_log) as H.
  destruct (result (for_api_names _ _ _)) as [acc|err]; [|done].
  destruct H as (Hi & Ht & Hp). simpl in Hi, Ht, Hp.
  by rewrite Ht, Hp, Hi.
Qed.

Lemma collect_api_emitted acc api_name :
  emits (λ ev, collection_event ev = true) (collect_api acc api_name).
Proof.
  unfold collect_api, get_llm_api, await_prompt, except_HomeAssistantError,
    LOGGER_debug, LOGGER_error.
  emits.
Qed.

Lemma for_api_names_emitted names acc :
  emits (λ ev, collection_event ev = true) (for_api_names names acc).
Proof.
  revert acc. induction names as [|api_name names IH]; intros acc.
  - apply emits_ret.
  - apply emits_bind; [apply collect_api_emitted | done].
Qed.

Lemma collect_apis_emitted llm_api_names :
  emits (λ ev, collection_event ev = true) (collect_apis llm_api_names).
Proof.
  destruct llm_api_names as [[|api_name names]|]; try apply emits_ret.
  apply for_api_names_emitted.
Qed.



End collection.

(** ** The prompt block and the publication *)

Section composition.
Variable host : Host.
Variable hass : HomeAssistant.
Variable user_input : ConversationInput.
Variable config_entry : ConfigEntry.
Variable user_name : option string.

Abbreviation base_prompt := (base_prompt host hass config_entry user_name).
Abbreviation template_problem := (template_problem user_input).
Abbreviation effective_api := (effective_api host user_input).

Abbreviation prompt_block := (prompt_block host hass config_entry user_name).
Abbreviation build_prompt := (build_prompt host hass user_input config_entry user_name).
Abbreviation publish := (publish host user_input).

Lemma line_121_test instances :
  existsb (λ api_instance, isinstance_CustomLLMAPI (api api_instance)) instances
    && (length instances =? 1) = true ↔ sole_custom_api instances.
Proof.
  unfold sole_custom_api. split.
  - intros [Hany Hlen]%andb_prop. apply Nat.eqb_eq in Hlen.
    destruct instances as [|llm_api [|? ?]]; try done.
    exists llm_api. split; [done|]. simpl in Hany. by rewrite orb_false_r in Hany.
  - intros (llm_api & -> & Hcustom). simpl. by rewrite Hcustom.
Qed.

Lemma line_121_test_false instances :
  ¬ sole_custom_api instances →
  existsb (λ api_instance, isinstance_CustomLLMAPI (api api_instance)) instances
    && (length instances =? 1) = false.
Proof.
  intros Hnot. apply not_true_is_false. by rewrite line_121_test.
Qed.

Lemma prompt_block_read_only acc : read_only (prompt_block acc).
Proof.
  unfold prompt_block, await_prompt, LOGGER_debug. read_only.
Qed.

Lemma build_prompt_read_only acc : read_only (build_prompt acc).
Proof.
  unfold build_prompt, except_TemplateError, LOGGER_error.
  pose proof prompt_block_read_only. read_only.
Qed.


(** Policy 1, when the second await of the prompt raises: the exception
    leaves the block, and the base prompt is not rendered. *)
Lemma prompt_block_sole_custom_raises acc llm_api err chat_log :
  api_instances acc = [llm_api] →
  isinstance_CustomLLMAPI (api llm_api) = true →
  awaited llm_api 1 = Raise err →
  result (prompt_block acc chat_log) = Raise err ∧
  Forall (λ ev, renders_base_prompt ev = false ∧ trace_record ev = false)
         (emitted (prompt_block acc chat_log)).
Proof.
  intros Hinst Hcustom Hprompt. unfold prompt_block.
  rewrite Hinst. simpl. rewrite Hcustom. simpl.
  unfold awaited in Hprompt. unfold await_prompt.
  destruct (api_prompt llm_api) as [outcome|text].
  - rewrite bind_run. simpl. rewrite Hprompt. simpl. split; [done|].
    by repeat constructor.
  - injection Hprompt as <-. split; [done|]. constructor.
Qed.

(** Policy 2: the base prompt alone. *)
Lemma prompt_block_no_api acc p chat_log :
  api_instances acc = [] →
  base_prompt = Ok p →
  result (prompt_block acc chat_log) = Ok (prompt_object_of p, prompt_text p).
Proof.
  intros Hinst Hbase. unfold prompt_block. rewrite Hinst. simpl.
  fold base_prompt. rewrite bind_run. simpl. rewrite Hbase.
  by destruct p.
Qed.

(** Policy 3: the base prompt and the collected prompts, joined. *)
Lemma prompt_block_combined acc p chat_log :
  api_instances acc ≠ [] →
  ¬ sole_custom_api (api_instances acc) →
  base_prompt = Ok p →
  result (prompt_block acc chat_log) =
    Ok (prompt_object_of p, join nl (prompt_text p :: api_prompts acc)).
Proof.
  intros Hinst Hnot Hbase. unfold prompt_block.
  rewrite (line_121_test_false _ Hnot).
  destruct (api_instances acc) as [|first rest]; [done|].
  fold base_prompt. rewrite bind_run. simpl. rewrite Hbase.
  by destruct p.
Qed.

(** The base prompt is rendered in every case but policy 1, and a
    [TemplateError] of the rendering leaves the block. *)
Lemma prompt_block_base_raises acc err chat_log :
  ¬ sole_custom_api (api_instances acc) →
  base_prompt = Raise err →
  result (prompt_block acc chat_log) = Raise err ∧
  Forall (λ ev, trace_record ev = false) (emitted (prompt_block acc chat_log)).
Proof.
  intros Hnot Hbase. unfold prompt_block.
  rewrite (line_121_test_false _ Hnot).
  fold base_prompt.
  destruct (api_instances acc) as [|first rest];
    rewrite bind_run; simpl; rewrite Hbase; split; try done; repeat constructor.
Qed.

Lemma build_prompt_ok acc v chat_log :
  result (prompt_block acc chat_log) = Ok v →
  result (build_prompt acc chat_log) = Ok v ∧
  emitted (build_prompt acc chat_log) = emitted (prompt_block acc chat_log).
Proof.
  intros Hv. unfold build_prompt. rewrite bind_run. simpl. rewrite Hv. simpl.
  by rewrite app_nil_r.
Qed.

Lemma build_prompt_raises acc err chat_log :
  result (prompt_block acc chat_log) = Raise err →
  result (build_prompt acc chat_log) =
    Raise (if isinstance_TemplateError err then template_problem chat_log else err) ∧
  emitted (build_prompt acc chat_log) =
    emitted (prompt_block acc chat_log) ++
    (if isinstance_TemplateError err
     then [Log ERROR "Error rendering prompt: %s" [AExn err]] else []).
Proof.
  intros Herr. unfold build_prompt. rewrite bind_run.
  cbn [try result chat_log_after emitted]. rewrite Herr.
  unfold except_TemplateError.
  destruct (isinstance_TemplateError err); [|done].
  simpl. by rewrite prompt_block_read_only.
Qed.

Lemma combined_api_instance_run acc prompt chat_log :
  result (combined_api_instance host user_input acc prompt chat_log)
    = Ok (effective_api acc prompt) ∧
  chat_log_after (combined_api_instance host user_input acc prompt chat_log) = chat_log.
Proof.
  unfold combined_api_instance, effective_api.
  by destruct (api_instances acc) as [|? [|? ?]].
Qed.

(** What lines 168-209 leave on the chat log, and what they return.  The
    assignment to [content[0]] comes after the two other assignments, so
    those are made also when it raises. *)
Lemma publish_run acc prompt_object prompt chat_log :
  let extra :=
    py_or (input_extra_system_prompt user_input) (extra_system_prompt chat_log) in
  let final := with_extra_system_prompt prompt extra in
  chat_log_after (publish acc prompt_object prompt chat_log) =
    {| conversation_id := conversation_id chat_log;
       content := <[0:=SystemContent final]> (content chat_log);
       extra_system_prompt := extra;
       llm_api := effective_api acc final |} ∧
  result (publish acc prompt_object prompt chat_log) =
    match content chat_log with
    | [] => Raise IndexError
    | _ :: _ => Ok prompt_object
    end.
Proof.
  intros extra final. unfold publish.
  rewrite bind_run. cbn [read_chat_log result chat_log_after emitted].
  fold extra. rewrite bind_run.
  assert (∃ evs,
    (match extra with
     | Some text =>
         if truthy extra
         then LOGGER_debug "Using extra system prompt: %s" [AStr text];;
              emit (update_current_trace ["extra_system_prompt"]);;
              mret (prompt +:+ nl +:+ text)
         else mret prompt
     | None => mret prompt
     end) chat_log
    = {| result := Ok final; chat_log_after := chat_log; emitted := evs |})
    as [evs ->].
  { unfold final, with_extra_system_prompt.
    destruct extra as [text|]; [destruct (truthy (Some text))|]; by eexists. }
  cbn [result chat_log_after emitted]. rewrite bind_run.
  destruct (combined_api_instance_run acc final chat_log) as [-> ->].
  cbn [result]. unfold set_llm_api, set_extra_system_prompt, set_content_0.
  destruct (content chat_log) as [|first rest] eqn:Hcontent; simpl;
    by rewrite Hcontent.
Qed.

End composition.

(** ** The whole turn *)

Section turn.
Variable host : Host.
Variable hass : HomeAssistant.
Variable user_input : ConversationInput.
Variable config_entry : ConfigEntry.

Abbreviation collects := (collects host hass user_input config_entry).

Abbreviation get_user_name := (get_user_name host user_input).
Abbreviation collect_apis := (collect_apis host hass user_input config_entry).
Abbreviation build_prompt := (build_prompt host hass user_input config_entry).
Abbreviation publish := (publish host user_input).
Abbreviation async_update_llm_data :=
  (async_update_llm_data host hass user_input config_entry).

Lemma get_user_name_read_only : read_only get_user_name.
Proof. unfold get_user_name. read_only. Qed.

Lemma get_user_name_emitted :
  emits (λ ev, renders_base_prompt ev = false ∧ trace_record ev = false)
        get_user_name.
Proof. unfold get_user_name. emits. Qed.

Lemma collection_event_neither ev :
  collection_event ev = true → renders_base_prompt ev = false ∧ trace_record ev = false.
Proof. by destruct ev as [| [] | |]. Qed.

(** Up to the publication nothing is written on the chat log. *)
Lemma turn_published llm_api_names chat_log user_name acc prompt_object prompt :
  collects llm_api_names chat_log user_name acc →
  result (build_prompt user_name acc chat_log) = Ok (prompt_object, prompt) →
  result (async_update_llm_data llm_api_names chat_log)
    = result (publish acc prompt_object prompt chat_log) ∧
  chat_log_after (async_update_llm_data llm_api_names chat_log)
    = chat_log_after (publish acc prompt_object prompt chat_log) ∧
  emitted (async_update_llm_data llm_api_names chat_log)
    = emitted (get_user_name chat_log) ++
      emitted (collect_apis user_name llm_api_names chat_log) ++
      emitted (build_prompt user_name acc chat_log) ++
      emitted (publish acc prompt_object prompt chat_log).
Proof.
  intros [Huser Hacc] Hprompt. unfold async_update_llm_data.
  rewrite bind_run, Huser, get_user_name_read_only. cbn [result chat_log_after emitted].
  rewrite bind_run, Hacc, collect_apis_read_only. cbn [result chat_log_after emitted].
  rewrite bind_run, Hprompt, build_prompt_read_only. by cbn [result chat_log_after emitted].
Qed.

(** An exception of the prompt block ends the turn with the chat log as it
    was. *)
Lemma turn_raises_in_prompt llm_api_names chat_log user_name acc err :
  collects llm_api_names chat_log user_name acc →
  result (build_prompt user_name acc chat_log) = Raise err →
  result (async_update_llm_data llm_api_names chat_log) = Raise err ∧
  chat_log_after (async_update_llm_data llm_api_names chat_log) = chat_log ∧
  emitted (async_update_llm_data llm_api_names chat_log)
    = emitted (get_user_name chat_log) ++
      emitted (collect_apis user_name llm_api_names chat_log) ++
      emitted (build_prompt user_name acc chat_log).
Proof.
  intros [Huser Hacc] Hprompt. unfold async_update_llm_data.
  rewrite bind_run, Huser, get_user_name_read_only. cbn [result chat_log_after emitted].
  rewrite bind_run, Hacc, collect_apis_read_only. cbn [result chat_log_after emitted].
  rewrite bind_run, Hprompt, build_prompt_read_only. by cbn [result chat_log_after emitted].
Qed.

(** A turn that returns went through every phase. *)
Lemma turn_returns llm_api_names chat_log prompt_object :
  result (async_update_llm_data llm_api_names chat_log) = Ok prompt_object →
  ∃ user_name acc prompt,
    collects llm_api_names chat_log user_name acc ∧
    result (build_prompt user_name acc chat_log) = Ok (prompt_object, prompt) ∧
    result (publish acc prompt_object prompt chat_log) = Ok prompt_object.
Proof.
  unfold async_update_llm_data, collects.
  rewrite bind_run.
  destruct (result (get_user_name chat_log)) as [user_name|?] eqn:Huser; [|done].
  rewrite get_user_name_read_only. cbn [result]. rewrite bind_run.
  destruct (result (collect_apis user_name llm_api_names chat_log))
    as [acc|?] eqn:Hacc; [|done].
  rewrite collect_apis_read_only. cbn [result]. rewrite bind_run.
  destruct (result (build_prompt user_name acc chat_log))
    as [[prompt_object' prompt]|?] eqn:Hprompt; [|done].
  rewrite build_prompt_read_only. cbn [result]. intros Hpub.
  pose proof (publish_run host user_input acc prompt_object' prompt chat_log) as [_ Hres].
  rewrite Hpub in Hres.
  destruct (content chat_log); [done|]. injection Hres as ->.
  by exists user_name, acc, prompt.
Qed.


End turn.

(** ** The properties of the turn *)

(** [sep.join] puts the separator between neighbours, once. *)
Lemma join_cons sep part part' parts :
  join sep (part :: part' :: parts) = part +:+ sep +:+ join sep (part' :: parts).
Proof. done. Qed.

Lemma join_singleton sep part : join sep [part] = part.
Proof. done. Qed.

Section properties.
Variable host : Host.
Variable hass : HomeAssistant.
Variable user_input : ConversationInput.
Variable config_entry : ConfigEntry.

Abbreviation selected_extra_system_prompt := (selected_extra_system_prompt user_input).

Abbreviation get_user_name := (get_user_name host user_input).
Abbreviation collect_apis := (collect_apis host hass user_input config_entry).
Abbreviation build_prompt := (build_prompt host hass user_input config_entry).
Abbreviation async_update_llm_data :=
  (async_update_llm_data host hass user_input config_entry).
Abbreviation collects := (collects host hass user_input config_entry).
Abbreviation resolve := (resolve host hass user_input config_entry).
Abbreviation resolved := (resolved host hass user_input config_entry).
Abbreviation resolution_fails := (resolution_fails host hass user_input config_entry).
Abbreviation base_prompt := (base_prompt host hass config_entry).
Abbreviation effective_api := (effective_api host user_input).

Lemma collects_accumulators llm_api_names chat_log user_name acc :
  collects llm_api_names chat_log user_name acc →
  api_instances acc = omap (resolved user_name) (default [] llm_api_names) ∧
  all_tools acc = concat (tools <$> api_instances acc) ∧
  api_prompts acc = omap fragment (api_instances acc).
Proof.
  intros [_ Hacc].
  pose proof (collect_apis_result host hass user_input config_entry user_name
                llm_api_names chat_log) as H.
  by rewrite Hacc in H.
Qed.

(** The chat log and the result of a turn whose prompt block returned. *)
Lemma turn_chat_log llm_api_names chat_log user_name acc prompt_object prompt :
  collects llm_api_names chat_log user_name acc →
  result (build_prompt user_name acc chat_log) = Ok (prompt_object, prompt) →
  let final :=
    with_extra_system_prompt prompt (selected_extra_system_prompt chat_log) in
  chat_log_after (async_update_llm_data llm_api_names chat_log) =
    {| conversation_id := conversation_id chat_log;
       content := <[0:=SystemContent final]> (content chat_log);
       extra_system_prompt := selected_extra_system_prompt chat_log;
       llm_api := effective_api acc final |} ∧
  result (async_update_llm_data llm_api_names chat_log) =
    match content chat_log with
    | [] => Raise IndexError
    | _ :: _ => Ok prompt_object
    end.
Proof.
  intros Hcollects Hprompt final.
  destruct (turn_published _ _ _ _ _ _ _ _ _ _ Hcollects Hprompt) as (-> & -> & _).
  apply publish_run.
Qed.

(** When every name fails to resolve the accumulators stay as they
    were. *)
Lemma for_api_names_all_fail user_name names acc chat_log :
  Forall (resolution_fails user_name) names →
  result (for_api_names host hass user_input config_entry user_name names acc chat_log)
    = Ok acc.
Proof.
  intros Hfail. revert chat_log.
  induction Hfail as [|api_name names (err & Hres & Herr) _ IH]; intros chat_log.
  { reflexivity. }
  cbn [for_api_names]. rewrite bind_run.
  pose proof (collect_api_result host hass user_input config_entry user_name
                acc api_name chat_log) as Hstep.
  rewrite Hres, Herr in Hstep. rewrite Hstep. cbn [result]. apply IH.
Qed.

Lemma nothing_resolves user_name llm_api_names chat_log :
  Forall (resolution_fails user_name) (default [] llm_api_names) →
  result (collect_apis user_name llm_api_names chat_log) = Ok nothing_collected.
Proof.
  intros Hfail.
  destruct llm_api_names as [[|api_name names]|]; try done.
  by apply for_api_names_all_fail.
Qed.


Lemma publish_emitted acc prompt_object prompt :
  emits (λ ev, renders_base_prompt ev = false)
        (publish host user_input acc prompt_object prompt).
Proof.
  apply (emits_bind _ read_chat_log); [apply emits_read|]. intros chat_log'.
  unfold combined_api_instance, set_llm_api, set_extra_system_prompt,
    set_content_0, LOGGER_debug.
  emits.
Qed.

Lemma omap_fragments instances fragments :
  Forall2 (λ llm_api text, fragment llm_api = Some text) instances fragments →
  omap fragment instances = fragments.
Proof.
  induction 1 as [|llm_api text instances fragments Hfrag _ IH]; [done|].
  by rewrite (omap_cons_Some _ _ _ _ Hfrag), IH.
Qed.

(** C1.  When two or more providers resolve, or one that is not the
    [CustomLLMAPI], and the base prompt renders, the prompt that leaves the
    prompt block is the base prompt text followed by the prompt fragments of
    the resolved providers, joined by one newline each, in the order of the
    resolution; the resolved providers are the successful resolutions of the
    requested names in their order.  Where every resolved provider has a
    fragment, these are all of them. *)
Theorem C1_combined_prompt llm_api_names chat_log user_name acc p :
  collects llm_api_names chat_log user_name acc →
  (2 ≤ length (api_instances acc) ∨
   ∃ llm_api, api_instances acc = [llm_api] ∧
              isinstance_CustomLLMAPI (api llm_api) = false) →
  base_prompt user_name = Ok p →
  api_instances acc = omap (resolved user_name) (default [] llm_api_names) ∧
  result (build_prompt user_name acc chat_log) =
    Ok (prompt_object_of p,
        join nl (prompt_text p :: omap fragment (api_instances acc))) ∧
  ∀ fragments,
    Forall2 (λ llm_api text, fragment llm_api = Some text)
            (api_instances acc) fragments →
    result (build_prompt user_name acc chat_log) =
      Ok (prompt_object_of p, join nl (prompt_text p :: fragments)).
Proof.
  intros Hcollects Hshape Hbase.
  destruct (collects_accumulators _ _ _ _ Hcollects) as (Hinst & _ & Hprompts).
  assert (api_instances acc ≠ []) as Hsome.
  { destruct Hshape as [Hlen|(llm_api & -> & _)]; [|done].
    intros Hnil. rewrite Hnil in Hlen. simpl in Hlen. lia. }
  assert (¬ sole_custom_api (api_instances acc)) as Hnot.
  { intros (llm_api & Heq & Hcustom).
    destruct Hshape as [Hlen|(llm_api' & Heq' & Hcustom')].
    - rewrite Heq in Hlen. simpl in Hlen. lia.
    - rewrite Heq in Heq'. injection Heq' as ->. congruence. }
  pose proof (prompt_block_combined host hass config_entry user_name
                acc p chat_log Hsome Hnot Hbase) as Hblock.
  apply (build_prompt_ok host hass user_input) in Hblock as [Hbuild _].
  rewrite Hprompts in Hbuild.
  split; [done|]. split; [done|].
  intros fragments Hall. by rewrite <- (omap_fragments _ _ Hall).
Qed.

(** What a turn that has collected [acc] sends out before the
    publication never renders the base prompt when the prompt block does
    not. *)
Lemma turn_without_base_prompt llm_api_names chat_log user_name acc :
  collects llm_api_names chat_log user_name acc →
  Forall (λ ev, renders_base_prompt ev = false)
         (emitted (prompt_block host hass config_entry user_name acc chat_log)) →
  Forall (λ ev, renders_base_prompt ev = false)
         (emitted (async_update_llm_data llm_api_names chat_log)).
Proof.
  intros Hcollects Hblock.
  assert (Forall (λ ev, renders_base_prompt ev = false)
            (emitted (get_user_name chat_log) ++
             emitted (collect_apis user_name llm_api_names chat_log))) as Hbefore.
  { rewrite Forall_app. split.
    - eapply Forall_impl; [apply get_user_name_emitted|]. by intros ev [? _].
    - eapply Forall_impl; [apply collect_apis_emitted|].
      intros ev Hev. by apply collection_event_neither in Hev as [? _]. }
  destruct (result (prompt_block host hass config_entry user_name acc chat_log))
    as [[prompt_object prompt]|err] eqn:Hres.
  - apply (build_prompt_ok host hass user_input) in Hres as [Hbuild Hemitted].
    destruct (turn_published _ _ _ _ _ _ _ _ _ _ Hcollects Hbuild) as (_ & _ & ->).
    rewrite (assoc_L (++)), Forall_app. split; [done|].
    rewrite Forall_app, Hemitted. split; [done|]. apply publish_emitted.
  - apply (build_prompt_raises host hass user_input) in Hres as [Hbuild Hemitted].
    destruct (turn_raises_in_prompt _ _ _ _ _ _ _ _ _ Hcollects Hbuild)
      as (_ & _ & ->).
    rewrite (assoc_L (++)), Forall_app. split; [done|].
    rewrite Hemitted, Forall_app. split; [done|].
    destruct (isinstance_TemplateError err); by repeat constructor.
Qed.

(** C2 (code bug).  When the [CustomLLMAPI] is the only provider that
    resolves and its prompt is a coroutine object whose run gives [p], the
    loop awaits it and collects the text of [p]; line 124 then awaits the
    same coroutine object a second time, which raises [RuntimeError].  The
    turn ends with that error and leaves the chat log as it was: the
    provider's prompt never becomes the prompt of the turn, although it was
    retrieved and the base prompt was not rendered. *)
Theorem C2_sole_custom_coroutine_awaited_twice
    llm_api_names chat_log user_name acc llm_api p :
  collects llm_api_names chat_log user_name acc →
  api_instances acc = [llm_api] →
  isinstance_CustomLLMAPI (api llm_api) = true →
  api_prompt llm_api = coroutine (Ok p) →
  api_prompts acc = [prompt_text p] ∧
  result (build_prompt user_name acc chat_log) = Raise RuntimeError ∧
  result (async_update_llm_data llm_api_names chat_log) = Raise RuntimeError ∧
  chat_log_after (async_update_llm_data llm_api_names chat_log) = chat_log ∧
  Forall (λ ev, renders_base_prompt ev = false)
         (emitted (async_update_llm_data llm_api_names chat_log)).
Proof.
  intros Hcollects Hinst Hcustom Hprompt.
  assert (awaited llm_api 0 = Ok p) as Hfirst
    by (unfold awaited; by rewrite Hprompt).
  assert (awaited llm_api 1 = Raise RuntimeError) as Hsecond
    by (unfold awaited; by rewrite Hprompt).
  destruct (collects_accumulators _ _ _ _ Hcollects) as (_ & _ & Hprompts).
  split.
  { rewrite Hprompts, Hinst.
    rewrite (omap_cons_Some fragment llm_api (prompt_text p)); [done|].
    unfold fragment. by rewrite Hfirst. }
  destruct (prompt_block_sole_custom_raises host hass config_entry user_name
              acc llm_api _ chat_log Hinst Hcustom Hsecond) as [Hblock Hevents].
  destruct (build_prompt_raises host hass user_input config_entry user_name
              acc _ chat_log Hblock) as [Hbuild _].
  cbn [isinstance_TemplateError] in Hbuild.
  destruct (turn_raises_in_prompt _ _ _ _ _ _ _ _ _ Hcollects Hbuild)
    as (Hres & Hlog & _).
  split; [done|]. split; [done|]. split; [done|].
  apply (turn_without_base_prompt _ _ _ _ Hcollects).
  eapply Forall_impl; [apply Hevents|]. by intros ev [? _].
Qed.


(** C3.  When no provider resolves (the list of names is absent or empty,
    or the resolution of every name raises a [HomeAssistantError]) and the
    base prompt renders, nothing is collected, the prompt that leaves the
    prompt block is the base prompt text alone, and [chat_log.llm_api] is
    set to [None]. *)
Theorem C3_no_provider_prompt llm_api_names chat_log user_name p :
  result (get_user_name chat_log) = Ok user_name →
  Forall (resolution_fails user_name) (default [] llm_api_names) →
  base_prompt user_name = Ok p →
  collects llm_api_names chat_log user_name nothing_collected ∧
  result (build_prompt user_name nothing_collected chat_log) =
    Ok (prompt_object_of p, prompt_text p) ∧
  llm_api (chat_log_after (async_update_llm_data llm_api_names chat_log)) = None ∧
  content (chat_log_after (async_update_llm_data llm_api_names chat_log)) =
    <[0:=SystemContent
           (with_extra_system_prompt (prompt_text p)
              (selected_extra_system_prompt chat_log))]> (content chat_log).
Proof.
  intros Huser Hfail Hbase.
  assert (collects llm_api_names chat_log user_name nothing_collected) as Hcollects.
  { split; [done|]. by apply nothing_resolves. }
  pose proof (prompt_block_no_api host hass config_entry user_name
                nothing_collected p chat_log eq_refl Hbase) as Hblock.
  apply (build_prompt_ok host hass user_input) in Hblock as [Hbuild _].
  destruct (turn_chat_log _ _ _ _ _ _ Hcollects Hbuild) as [-> _].
  done.
Qed.


(** A non-empty selected extra system prompt ends the final prompt and is
    stored. *)
Lemma extra_appended llm_api_names chat_log user_name acc prompt_object prompt extra :
  collects llm_api_names chat_log user_name acc →
  result (build_prompt user_name acc chat_log) = Ok (prompt_object, prompt) →
  selected_extra_system_prompt chat_log = Some extra →
  extra ≠ EmptyString →
  content (chat_log_after (async_update_llm_data llm_api_names chat_log)) =
    <[0:=SystemContent (prompt +:+ nl +:+ extra)]> (content chat_log) ∧
  extra_system_prompt (chat_log_after (async_update_llm_data llm_api_names chat_log))
    = Some extra.
Proof.
  intros Hcollects Hbuild Hsel Hne.
  destruct (turn_chat_log _ _ _ _ _ _ Hcollects Hbuild) as [-> _].
  rewrite Hsel. cbn [content extra_system_prompt].
  unfold with_extra_system_prompt, truthy.
  apply String.eqb_neq in Hne. by rewrite Hne.
Qed.

(** C5 (amended).  When the base prompt is rendered and the rendering
    raises a [TemplateError], the turn raises a [ConverseError] with the
    message "Error rendering prompt", the conversation id of the chat log
    and an intent response whose error is [UNKNOWN] with the speech "Sorry,
    I had a problem with my template"; the chat log is left as it was and no
    trace record is sent. *)
Theorem C5_template_error_ends_turn llm_api_names chat_log user_name acc message :
  collects llm_api_names chat_log user_name acc →
  ¬ sole_custom_api (api_instances acc) →
  base_prompt user_name = Raise (TemplateError message) →
  result (async_update_llm_data llm_api_names chat_log) =
    Raise (ConverseError "Error rendering prompt" (conversation_id chat_log)
             {| response_language := language user_input;
                error_code := Some UNKNOWN;
                speech := Some "Sorry, I had a problem with my template" |}) ∧
  chat_log_after (async_update_llm_data llm_api_names chat_log) = chat_log ∧
  Forall (λ ev, trace_record ev = false)
         (emitted (async_update_llm_data llm_api_names chat_log)).
Proof.
  intros Hcollects Hnot Hbase.
  destruct (prompt_block_base_raises host hass config_entry user_name
              acc _ chat_log Hnot Hbase) as [Hblock Hevents].
  destruct (build_prompt_raises host hass user_input config_entry user_name
              acc _ chat_log Hblock) as [Hbuild Hemitted].
  cbn [isinstance_TemplateError] in Hbuild, Hemitted.
  destruct (turn_raises_in_prompt _ _ _ _ _ _ _ _ _ Hcollects Hbuild)
    as (-> & -> & ->).
  split; [done|]. split; [done|].
  rewrite !Forall_app. split_and!.
  - eapply Forall_impl; [apply get_user_name_emitted|]. by intros ev [_ ?].
  - eapply Forall_impl; [apply collect_apis_emitted|].
    intros ev Hev. by apply collection_event_neither in Hev as [_ ?].
  - rewrite Hemitted, Forall_app. split; [done|]. by repeat constructor.
Qed.

(** C6 (amended).  When more than one provider resolves, the instance put
    on the chat log is a new one: its [api] is that of the first resolved
    provider, its prompt is the final prompt of the turn (the prompt of the
    prompt block with the selected extra system prompt appended), its
    context is the context of the turn, its serializer is
    [selector_serializer], and its tools are the tools of the resolved
    providers, concatenated in the order of the resolution. *)
Theorem C6_synthetic_instance
    llm_api_names chat_log user_name acc first second rest prompt_object prompt :
  collects llm_api_names chat_log user_name acc →
  api_instances acc = first :: second :: rest →
  result (build_prompt user_name acc chat_log) = Ok (prompt_object, prompt) →
  omap (resolved user_name) (default [] llm_api_names) = first :: second :: rest ∧
  llm_api (chat_log_after (async_update_llm_data llm_api_names chat_log)) =
    Some {| api := api first;
            api_prompt :=
              PromptText (with_extra_system_prompt prompt
                            (selected_extra_system_prompt chat_log));
            llm_context := new_llm_context host user_input;
            tools := concat (tools <$> first :: second :: rest);
            custom_serializer := Some selector_serializer |}.
Proof.
  intros Hcollects Hinst Hbuild.
  destruct (collects_accumulators _ _ _ _ Hcollects) as (Hres & Htools & _).
  destruct (turn_chat_log _ _ _ _ _ _ Hcollects Hbuild) as [-> _].
  cbn [llm_api]. unfold effective_api.
  rewrite <- Hres, Htools, Hinst. done.
Qed.

(** C8 (amended).  When a provider resolves, awaiting its prompt raises a
    [HomeAssistantError], the resolved providers are not the [CustomLLMAPI]
    alone and the base prompt renders: an instance is put on the chat log,
    its tools are the tools of all resolved providers and so contain those
    of this provider, and the prompt of the prompt block is the base prompt
    with the fragments of the other providers, of which there are fewer
    than providers. *)
Theorem C8_tools_without_fragment
    llm_api_names chat_log user_name acc provider err p :
  collects llm_api_names chat_log user_name acc →
  provider ∈ api_instances acc →
  awaited provider 0 = Raise err →
  isinstance_HomeAssistantError err = true →
  ¬ sole_custom_api (api_instances acc) →
  base_prompt user_name = Ok p →
  (∃ effective,
     llm_api (chat_log_after (async_update_llm_data llm_api_names chat_log))
       = Some effective ∧
     tools effective = concat (tools <$> api_instances acc) ∧
     tools provider ⊆ tools effective) ∧
  result (build_prompt user_name acc chat_log) =
    Ok (prompt_object_of p,
        join nl (prompt_text p :: omap fragment (api_instances acc))) ∧
  fragment provider = None ∧
  length (omap fragment (api_instances acc)) < length (api_instances acc).
Proof.
  intros Hcollects Hin Hprompt _ Hnot Hbase.
  destruct (collects_accumulators _ _ _ _ Hcollects) as (_ & Htools & Hprompts).
  assert (api_instances acc ≠ []) as Hsome.
  { intros Hnil. rewrite Hnil in Hin. by apply elem_of_nil in Hin. }
  pose proof (prompt_block_combined host hass config_entry user_name
                acc p chat_log Hsome Hnot Hbase) as Hblock.
  apply (build_prompt_ok host hass user_input) in Hblock as [Hbuild _].
  destruct (turn_chat_log _ _ _ _ _ _ Hcollects Hbuild) as [-> _].
  assert (fragment provider = None) as Hnone.
  { unfold fragment. by rewrite Hprompt. }
  split; [|split; [by rewrite <- Hprompts|split; [done|]]].
  - cbn [llm_api]. unfold effective_api.
    assert (tools provider ⊆ concat (tools <$> api_instances acc)) as Hsub.
    { intros tool Htool. apply (elem_of_concat _ (tools provider)); [done|].
      by apply list_elem_of_fmap_2. }
    destruct (api_instances acc) as [|first [|second rest]] eqn:Hinst; [done|..].
    + exists first. split; [done|]. simpl in *. rewrite app_nil_r in *. done.
    + eexists. split; [done|]. cbn [tools]. by rewrite Htools.
  - clear -Hin Hnone. induction Hin as [provider instances|provider other instances Hin IH].
    + rewrite (omap_cons_None _ _ _ Hnone). simpl.
      pose proof (omap_length_le fragment instances). lia.
    + specialize (IH Hnone). destruct (fragment other) as [text|] eqn:Hother.
      * rewrite (omap_cons_Some _ _ _ _ Hother). simpl. lia.
      * rewrite (omap_cons_None _ _ _ Hother). simpl. lia.
Qed.

(** C9.  When the override of the call is the empty string and the chat
    log holds a non-empty extra system prompt, the stored one is selected,
    appended to the prompt after a newline, and kept on the chat log. *)
Theorem C9_empty_override_keeps_stored
    llm_api_names chat_log user_name acc prompt_object prompt stored :
  collects llm_api_names chat_log user_name acc →
  result (build_prompt user_name acc chat_log) = Ok (prompt_object, prompt) →
  input_extra_system_prompt user_input = Some EmptyString →
  extra_system_prompt chat_log = Some stored →
  stored ≠ EmptyString →
  selected_extra_system_prompt chat_log = Some stored ∧
  content (chat_log_after (async_update_llm_data llm_api_names chat_log)) =
    <[0:=SystemContent (prompt +:+ nl +:+ stored)]> (content chat_log) ∧
  extra_system_prompt (chat_log_after (async_update_llm_data llm_api_names chat_log))
    = Some stored.
Proof.
  intros Hcollects Hbuild Hoverride Hstored Hne.
  assert (selected_extra_system_prompt chat_log = Some stored) as Hsel.
  { unfold selected_extra_system_prompt, py_or. by rewrite Hoverride, Hstored. }
  destruct (turn_chat_log _ _ _ _ _ _ Hcollects Hbuild) as [-> _].
  rewrite Hsel. cbn [content extra_system_prompt].
  unfold with_extra_system_prompt, truthy.
  apply String.eqb_neq in Hne. by rewrite Hne.
Qed.

(** C10.  A turn that returns has replaced the first message of the chat
    log by a system message with the final prompt (the prompt of the prompt
    block with the selected extra system prompt appended) and has left
    every other message as it was.  On an empty list of messages no turn
    returns: one that reaches the assignment raises [IndexError]. *)
Theorem C10_only_first_message_replaced llm_api_names chat_log :
  (∀ prompt_object,
     result (async_update_llm_data llm_api_names chat_log) = Ok prompt_object →
     ∃ user_name acc prompt,
       collects llm_api_names chat_log user_name acc ∧
       result (build_prompt user_name acc chat_log) = Ok (prompt_object, prompt) ∧
       let final :=
         with_extra_system_prompt prompt (selected_extra_system_prompt chat_log) in
       let after := chat_log_after (async_update_llm_data llm_api_names chat_log) in
       content after = <[0:=SystemContent final]> (content chat_log) ∧
       content after !! 0 = Some (SystemContent final) ∧
       length (content after) = length (content chat_log) ∧
       ∀ i, 0 < i → content after !! i = content chat_log !! i) ∧
  (content chat_log = [] →
   ¬ is_Ok (result (async_update_llm_data llm_api_names chat_log))) ∧
  (∀ user_name acc prompt_object prompt,
     content chat_log = [] →
     collects llm_api_names chat_log user_name acc →
     result (build_prompt user_name acc chat_log) = Ok (prompt_object, prompt) →
     result (async_update_llm_data llm_api_names chat_log) = Raise IndexError).
Proof.
  split; [|split].
  - intros prompt_object Hret.
    destruct (turn_returns _ _ _ _ _ _ _ Hret)
      as (user_name & acc & prompt & Hcollects & Hbuild & _).
    exists user_name, acc, prompt. split; [done|]. split; [done|].
    destruct (turn_chat_log _ _ _ _ _ _ Hcollects Hbuild) as [Hlog Hres].
    rewrite Hret in Hres. rewrite Hlog. cbn [content]. cbv zeta.
    split; [done|].
    destruct (content chat_log) as [|first rest]; [done|].
    split; [done|]. split; [done|].
    intros i Hi. apply list_lookup_insert_ne. lia.
  - intros Hempty Hok.
    destruct (result (async_update_llm_data llm_api_names chat_log))
      as [prompt_object|] eqn:Hret; [|done].
    destruct (turn_returns _ _ _ _ _ _ _ Hret)
      as (user_name & acc & prompt & Hcollects & Hbuild & _).
    destruct (turn_chat_log _ _ _ _ _ _ Hcollects Hbuild) as [_ Hres].
    rewrite Hret, Hempty in Hres. done.
  - intros user_name acc prompt_object prompt Hempty Hcollects Hbuild.
    destruct (turn_chat_log _ _ _ _ _ _ Hcollects Hbuild) as [_ ->].
    by rewrite Hempty.
Qed.

End properties.

(** C7.  The extra system prompt of a turn is the override of the call
    when that is non-empty, else the one stored on the chat log.  When it is
    non-empty it is the last segment of the final prompt, after one newline,
    whatever the prompt block returned; the selected value is stored on the
    chat log, and a later turn on that chat log, called without an override,
    appends it again. *)
Theorem C7_extra_system_prompt_appended
    host hass user_input config_entry llm_api_names chat_log user_name acc
    prompt_object prompt :
  collects host hass user_input config_entry llm_api_names chat_log user_name acc →
  result (build_prompt host hass user_input config_entry user_name acc chat_log)
    = Ok (prompt_object, prompt) →
  let selected := selected_extra_system_prompt user_input chat_log in
  let after :=
    chat_log_after
      (async_update_llm_data host hass user_input config_entry llm_api_names chat_log) in
  (truthy (input_extra_system_prompt user_input) = true →
   selected = input_extra_system_prompt user_input) ∧
  extra_system_prompt after = selected ∧
  ∀ extra,
    selected = Some extra →
    extra ≠ EmptyString →
    content after = <[0:=SystemContent (prompt +:+ nl +:+ extra)]> (content chat_log) ∧
    ∀ host' hass' later_input config_entry' later_names user_name' acc'
        prompt_object' prompt',
      truthy (input_extra_system_prompt later_input) = false →
      collects host' hass' later_input config_entry' later_names after user_name' acc' →
      result (build_prompt host' hass' later_input config_entry' user_name' acc' after)
        = Ok (prompt_object', prompt') →
      content (chat_log_after
                 (async_update_llm_data host' hass' later_input config_entry'
                    later_names after))
        = <[0:=SystemContent (prompt' +:+ nl +:+ extra)]> (content after).
Proof.
  intros Hcollects Hbuild selected after.
  split; [|split].
  - intros Htruthy. unfold selected, selected_extra_system_prompt, py_or.
    by rewrite Htruthy.
  - unfold after.
    by destruct (turn_chat_log _ _ _ _ _ _ _ _ _ _ Hcollects Hbuild) as [-> _].
  - intros extra Hsel Hne.
    destruct (extra_appended _ _ _ _ _ _ _ _ _ _ _ Hcollects Hbuild Hsel Hne)
      as [Hcontent Hstored].
    split; [done|].
    intros host' hass' later_input config_entry' later_names user_name' acc'
      prompt_object' prompt' Hnone Hcollects' Hbuild'.
    eapply extra_appended; [done..| |done].
    unfold selected_extra_system_prompt, py_or. by rewrite Hnone.
Qed.

Module Turns.
Import Household.

(** C1 on a turn with two providers, the custom API and an external one. *)
Lemma C1_witness :
  result (build_prompt host hass (question None) entry (Some "Ada")
            custom_and_weather (chat None))
  = Ok (None, join nl ["Base."; "Custom complete prompt."; "Tools: weather."]).
Proof.
  refine (proj1 (proj2 (C1_combined_prompt host hass (question None) entry
            (Some ["custom-conversation"; "weather"]) (chat None) (Some "Ada")
            custom_and_weather (PromptStr "Base.") _ _ _))).
  - split; reflexivity.
  - left. simpl. lia.
  - reflexivity.
Defined.

(** C2 on a turn with the custom API alone, its prompt a coroutine
    object: the prompt is collected, and the turn ends with the
    [RuntimeError] of the second await. *)
Lemma C2_witness :
  api_prompts custom_coroutine_alone = ["Custom complete prompt."] ∧
  result (build_prompt host_with_coroutine_prompt hass (question None) entry
            (Some "Ada") custom_coroutine_alone (chat None))
  = Raise RuntimeError ∧
  result (async_update_llm_data host_with_coroutine_prompt hass (question None) entry
            (Some ["custom-conversation"]) (chat None))
  = Raise RuntimeError ∧
  chat_log_after
    (async_update_llm_data host_with_coroutine_prompt hass (question None) entry
       (Some ["custom-conversation"]) (chat None))
  = chat None ∧
  Forall (λ ev, renders_base_prompt ev = false)
         (emitted (async_update_llm_data host_with_coroutine_prompt hass
                     (question None) entry (Some ["custom-conversation"])
                     (chat None))).
Proof.
  refine (C2_sole_custom_coroutine_awaited_twice host_with_coroutine_prompt hass
            (question None) entry (Some ["custom-conversation"]) (chat None)
            (Some "Ada") custom_coroutine_alone (custom_coroutine ada_custom_api)
            (PromptTuple "langfuse-7" "Custom complete prompt.") _ _ _ _).
  - split; reflexivity.
  - reflexivity.
  - reflexivity.
  - reflexivity.
Defined.


(** C3 on a turn with one name that the registry does not know. *)
Lemma C3_witness :
  collects host hass (question None) entry (Some ["bad_provider"]) (chat None)
           (Some "Ada") nothing_collected ∧
  result (build_prompt host hass (question None) entry (Some "Ada")
            nothing_collected (chat None))
  = Ok (None, "Base.") ∧
  llm_api (chat_log_after (async_update_llm_data host hass (question None) entry
                             (Some ["bad_provider"]) (chat None))) = None ∧
  content (chat_log_after (async_update_llm_data host hass (question None) entry
                             (Some ["bad_provider"]) (chat None)))
  = [SystemContent "Base."; UserContent "Will it rain?"].
Proof.
  refine (C3_no_provider_prompt host hass (question None) entry
            (Some ["bad_provider"]) (chat None) (Some "Ada") (PromptStr "Base.")
            _ _ _).
  - reflexivity.
  - repeat constructor. exists (HomeAssistantError "API not found").
    split; reflexivity.
  - reflexivity.
Defined.

(** C5, as stated, at a turn without providers on a broken base template:
    neither message of the error is the one quoted there. *)
Lemma C5_counterexample :
  base_prompt host_with_broken_template hass entry (Some "Ada")
    = Raise (TemplateError "unexpected end of template") ∧
  ∃ message conversation_id response,
    result (async_update_llm_data host_with_broken_template hass (question None)
              entry None (chat None))
      = Raise (ConverseError message conversation_id response) ∧
    message ≠ "a problem occurred while preparing the response" ∧
    speech response ≠ Some "a problem occurred while preparing the response".
Proof.
  split; [reflexivity|].
  eexists _, _, _. split; [vm_compute; reflexivity|].
  split; discriminate.
Qed.

(** C5 on a turn with no provider and a broken base template. *)
Lemma C5_witness :
  result (async_update_llm_data host_with_broken_template hass (question None)
            entry None (chat None))
  = Raise (ConverseError "Error rendering prompt" "conv-42"
             {| response_language := "en";
                error_code := Some UNKNOWN;
                speech := Some "Sorry, I had a problem with my template" |}) ∧
  chat_log_after (async_update_llm_data host_with_broken_template hass
                    (question None) entry None (chat None)) = chat None ∧
  Forall (λ ev, trace_record ev = false)
         (emitted (async_update_llm_data host_with_broken_template hass
                     (question None) entry None (chat None))).
Proof.
  refine (C5_template_error_ends_turn host_with_broken_template hass
            (question None) entry None (chat None) (Some "Ada") nothing_collected
            "unexpected end of template" _ _ _).
  - split; reflexivity.
  - intros (llm_api & Hinst & _). discriminate Hinst.
  - reflexivity.
Defined.

(** C6, as stated, at a turn with two providers and an override: the
    prompt of the instance on the chat log is not the prompt of the prompt
    block, it has the override appended. *)
Lemma C6_counterexample :
  collects host hass (question (Some "Be brief.")) entry
           (Some ["custom-conversation"; "weather"]) (chat None)
           (Some "Ada") custom_and_weather ∧
  ∃ composed effective,
    result (build_prompt host hass (question (Some "Be brief.")) entry (Some "Ada")
              custom_and_weather (chat None)) = Ok (None, composed) ∧
    llm_api (chat_log_after
               (async_update_llm_data host hass (question (Some "Be brief.")) entry
                  (Some ["custom-conversation"; "weather"]) (chat None)))
      = Some effective ∧
    api_prompt effective = PromptText (composed +:+ nl +:+ "Be brief.") ∧
    api_prompt effective ≠ PromptText composed.
Proof.
  split; [split; reflexivity|].
  eexists _, _. split; [vm_compute; reflexivity|].
  split; [vm_compute; reflexivity|].
  split; [reflexivity|]. vm_compute. discriminate.
Qed.

(** C6 on a turn with two providers and an override. *)
Lemma C6_witness :
  omap (resolved host hass (question (Some "Be brief.")) entry (Some "Ada"))
       ["custom-conversation"; "weather"]
  = [custom ada_custom_api; weather] ∧
  llm_api (chat_log_after
             (async_update_llm_data host hass (question (Some "Be brief.")) entry
                (Some ["custom-conversation"; "weather"]) (chat None)))
  = Some {| api := CustomAPI ada_custom_api;
            api_prompt :=
              PromptText (join nl ["Base."; "Custom complete prompt.";
                                   "Tools: weather."; "Be brief."]);
            llm_context := kitchen_context;
            tools := ["HassTurnOn"; "get_forecast"; "get_forecast"; "get_temperature"];
            custom_serializer := Some selector_serializer |}.
Proof.
  refine (C6_synthetic_instance host hass (question (Some "Be brief.")) entry
            (Some ["custom-conversation"; "weather"]) (chat None) (Some "Ada")
            custom_and_weather (custom ada_custom_api) weather [] None
            (join nl ["Base."; "Custom complete prompt."; "Tools: weather."])
            _ _ _).
  - split; reflexivity.
  - reflexivity.
  - reflexivity.
Defined.

(** C7 on a turn with an override on a chat log that holds another one. *)
Lemma C7_witness :
  extra_system_prompt
    (chat_log_after
       (async_update_llm_data host hass (question (Some "Be brief.")) entry
          (Some ["weather"]) (chat (Some "Speak like a pirate."))))
  = Some "Be brief." ∧
  content (chat_log_after
             (async_update_llm_data host hass (question (Some "Be brief.")) entry
                (Some ["weather"]) (chat (Some "Speak like a pirate."))))
  = [SystemContent (join nl ["Base."; "Tools: weather."; "Be brief."]);
     UserContent "Will it rain?"].
Proof.
  assert (collects host hass (question (Some "Be brief.")) entry (Some ["weather"])
            (chat (Some "Speak like a pirate.")) (Some "Ada")
            {| api_instances := [weather];
               all_tools := ["get_forecast"; "get_temperature"];
               api_prompts := ["Tools: weather."] |}) as Hcollects
    by (split; reflexivity).
  pose proof (C7_extra_system_prompt_appended host hass (question (Some "Be brief."))
                entry (Some ["weather"]) (chat (Some "Speak like a pirate."))
                (Some "Ada") _ None (join nl ["Base."; "Tools: weather."])
                Hcollects eq_refl) as (_ & Hstored & Happended).
  split; [exact Hstored|].
  refine (proj1 (Happended "Be brief." eq_refl _)). discriminate.
Defined.

(** C8, as stated, at a turn where the custom API is the only provider and
    its prompt cannot be awaited: the loop takes the error, the prompt block
    awaits the prompt again outside of the handler, and the turn ends with
    the error; no instance is put on the chat log. *)
Lemma C8_counterexample :
  collects host_with_failing_custom_prompt hass (question None) entry
           (Some ["custom-conversation"]) (chat None) (Some "Ada")
           failing_custom_alone ∧
  failing_custom ∈ api_instances failing_custom_alone ∧
  awaited failing_custom 0 = Raise (HomeAssistantError "langfuse unreachable") ∧
  isinstance_HomeAssistantError (HomeAssistantError "langfuse unreachable") = true ∧
  result (async_update_llm_data host_with_failing_custom_prompt hass (question None)
            entry (Some ["custom-conversation"]) (chat None))
    = Raise (HomeAssistantError "langfuse unreachable") ∧
  chat_log_after
    (async_update_llm_data host_with_failing_custom_prompt hass
       (question None) entry (Some ["custom-conversation"]) (chat None))
    = chat None ∧
  llm_api (chat None) = None.
Proof.
  split; [split; reflexivity|].
  split; [apply list_elem_of_here|].
  repeat split; reflexivity.
Qed.

(** C8 on a turn with a calendar whose prompt cannot be awaited, and the weather. *)
Lemma C8_witness :
  (∃ effective,
     llm_api (chat_log_after
                (async_update_llm_data host hass (question None) entry
                   (Some ["calendar"; "weather"]) (chat None)))
       = Some effective ∧
     tools effective = ["list_events"; "get_forecast"; "get_temperature"] ∧
     tools calendar ⊆ tools effective) ∧
  result (build_prompt host hass (question None) entry (Some "Ada")
            calendar_and_weather (chat None))
    = Ok (None, join nl ["Base."; "Tools: weather."]) ∧
  fragment calendar = None ∧
  length (omap fragment [calendar; weather]) < 2.
Proof.
  refine (C8_tools_without_fragment host hass (question None) entry
            (Some ["calendar"; "weather"]) (chat None) (Some "Ada")
            calendar_and_weather calendar (HomeAssistantError "calendar offline")
            (PromptStr "Base.") _ _ _ _ _ _).
  - split; reflexivity.
  - apply list_elem_of_here.
  - reflexivity.
  - reflexivity.
  - intros (llm_api & Hinst & _). discriminate Hinst.
  - reflexivity.
Defined.

(** C9 on a turn with an empty override on a chat log that holds one. *)
Lemma C9_witness :
  selected_extra_system_prompt (question (Some EmptyString))
    (chat (Some "Speak like a pirate.")) = Some "Speak like a pirate." ∧
  content (chat_log_after
             (async_update_llm_data host hass (question (Some EmptyString)) entry
                None (chat (Some "Speak like a pirate."))))
  = [SystemContent (join nl ["Base."; "Speak like a pirate."]);
     UserContent "Will it rain?"] ∧
  extra_system_prompt
    (chat_log_after
       (async_update_llm_data host hass (question (Some EmptyString)) entry
          None (chat (Some "Speak like a pirate."))))
  = Some "Speak like a pirate.".
Proof.
  refine (C9_empty_override_keeps_stored host hass (question (Some EmptyString))
            entry None (chat (Some "Speak like a pirate.")) (Some "Ada")
            nothing_collected None "Base." "Speak like a pirate." _ _ _ _ _).
  - split; reflexivity.
  - reflexivity.
  - reflexivity.
  - reflexivity.
  - discriminate.
Defined.

(** The turns of the scenarios, run. *)
Example no_names_gives_base_prompt :
  let run :=
    async_update_llm_data host hass (question None) entry (Some []) (chat None) in
  result run = Ok None ∧
  content (chat_log_after run) = [SystemContent "Base."; UserContent "Will it rain?"] ∧
  llm_api (chat_log_after run) = None.
Proof. repeat split; reflexivity. Qed.

Example bad_provider_is_logged_and_skipped :
  let run :=
    async_update_llm_data host hass (question None) entry (Some ["bad_provider"])
      (chat None) in
  result run = Ok None ∧
  chat_log_after run
    = chat_log_after
        (async_update_llm_data host hass (question None) entry (Some []) (chat None)) ∧
  resolution_error_record host "bad_provider" (HomeAssistantError "API not found")
    ∈ emitted run.
Proof.
  split; [reflexivity|]. split; [reflexivity|].
  vm_compute. do 3 apply list_elem_of_further. apply list_elem_of_here.
Qed.

Example empty_chat_raises_IndexError :
  result (async_update_llm_data host hass (question None) entry (Some ["weather"])
            empty_chat) = Raise IndexError.
Proof. reflexivity. Qed.

End Turns.

(** ** More on reading a run *)

Lemma filter_none {A} (b : A → bool) (l : list A) :
  Forall (λ x, b x = false) l → List.filter b l = [].
Proof.
  induction 1 as [|x l Hx _ IH]; [done|]. simpl. by rewrite Hx.
Qed.

Lemma filter_bind {A B} (b : Event → bool) (c : M A) (k : A → M B) chat_log :
  List.filter b (emitted ((c ≫= k) chat_log)) =
  List.filter b (emitted (c chat_log)) ++
  match result (c chat_log) with
  | Ok a => List.filter b (emitted (k a (chat_log_after (c chat_log))))
  | Raise _ => []
  end.
Proof.
  rewrite bind_run. destruct (result (c chat_log)); simpl.
  - apply List.filter_app.
  - by rewrite app_nil_r.
Qed.

Lemma omap_none {A B} (f : A → option B) (l : list A) :
  Forall (λ x, f x = None) l → omap f l = [].
Proof.
  induction 1 as [|x l Hx _ IH]; [done|]. by rewrite (omap_cons_None _ _ _ Hx).
Qed.

Lemma omap_bind {A B C} (f : Event → option C) (c : M A) (k : A → M B) chat_log :
  omap f (emitted ((c ≫= k) chat_log)) =
  omap f (emitted (c chat_log)) ++
  match result (c chat_log) with
  | Ok a => omap f (emitted (k a (chat_log_after (c chat_log))))
  | Raise _ => []
  end.
Proof.
  rewrite bind_run. destruct (result (c chat_log)); simpl.
  - apply omap_app.
  - by rewrite app_nil_r.
Qed.

Lemma oblivious_bind {A B} (c : M A) (k : A → M B) :
  oblivious c → (∀ a, oblivious (k a)) → oblivious (c ≫= k).
Proof.
  intros Hc Hk chat_log chat_log'. rewrite !bind_run.
  destruct (Hc chat_log chat_log') as [Hres Hev]. rewrite <- Hres, <- Hev.
  destruct (result (c chat_log)) as [a|e]; simpl; [|done].
  destruct (Hk a (chat_log_after (c chat_log)) (chat_log_after (c chat_log')))
    as [-> ->].
  done.
Qed.

Lemma oblivious_ret {A} (a : A) : oblivious (mret a).
Proof. done. Qed.

Lemma oblivious_raise {A} (e : exn) : oblivious (@raise A e).
Proof. done. Qed.

Lemma oblivious_emit ev : oblivious (emit ev).
Proof. done. Qed.

Lemma oblivious_await {A} c (r : Outcome A) : oblivious (await c r).
Proof. done. Qed.

Lemma oblivious_try {A} (c : M A) : oblivious c → oblivious (try c).
Proof.
  intros Hc chat_log chat_log'. destruct (Hc chat_log chat_log') as [Hres Hev].
  simpl. by rewrite Hres, Hev.
Qed.

Ltac oblivious :=
  repeat match goal with
         | |- oblivious (_ ≫= _) => apply oblivious_bind; [| intros ?]
         | |- oblivious (mret _) => apply oblivious_ret
         | |- oblivious (raise _) => apply oblivious_raise
         | |- oblivious (try _) => apply oblivious_try
         | |- oblivious (emit _) => apply oblivious_emit
         | |- oblivious (await _ _) => apply oblivious_await
         | |- oblivious (match ?x with _ => _ end) => destruct x
         | |- oblivious (if ?b then _ else _) => destruct b
         end.

(** ** The phases of a turn *)

Section phases.
Variable host : Host.
Variable hass : HomeAssistant.
Variable user_input : ConversationInput.
Variable config_entry : ConfigEntry.

Abbreviation get_user_name := (get_user_name host user_input).
Abbreviation collect_apis := (collect_apis host hass user_input config_entry).
Abbreviation prompt_block := (prompt_block host hass config_entry).
Abbreviation build_prompt := (build_prompt host hass user_input config_entry).
Abbreviation publish := (publish host user_input).
Abbreviation async_update_llm_data :=
  (async_update_llm_data host hass user_input config_entry).
Abbreviation collects := (collects host hass user_input config_entry).
Abbreviation resolve := (resolve host hass user_input config_entry).
Abbreviation resolved := (resolved host hass user_input config_entry).
Abbreviation base_prompt := (base_prompt host hass config_entry).
Abbreviation effective_api := (effective_api host user_input).
Abbreviation selected_extra_system_prompt := (selected_extra_system_prompt user_input).
Abbreviation publication_events := (publication_events host user_input).
Abbreviation resolution_call := (resolution_call host hass user_input config_entry).
Abbreviation breaks_loop := (breaks_loop host hass user_input config_entry).
Abbreviation base_prompt_call := (base_prompt_call hass config_entry).

(** An exception of the user store ends the turn at once. *)
Lemma turn_raises_in_lookup llm_api_names chat_log err :
  result (get_user_name chat_log) = Raise err →
  result (async_update_llm_data llm_api_names chat_log) = Raise err ∧
  chat_log_after (async_update_llm_data llm_api_names chat_log) = chat_log ∧
  emitted (async_update_llm_data llm_api_names chat_log)
    = emitted (get_user_name chat_log).
Proof.
  intros Huser. unfold async_update_llm_data.
  rewrite bind_run, Huser, get_user_name_read_only. done.
Qed.

(** An exception that leaves the loop ends the turn. *)
Lemma turn_raises_in_collection llm_api_names chat_log user_name err :
  result (get_user_name chat_log) = Ok user_name →
  result (collect_apis user_name llm_api_names chat_log) = Raise err →
  result (async_update_llm_data llm_api_names chat_log) = Raise err ∧
  chat_log_after (async_update_llm_data llm_api_names chat_log) = chat_log ∧
  emitted (async_update_llm_data llm_api_names chat_log)
    = emitted (get_user_name chat_log) ++
      emitted (collect_apis user_name llm_api_names chat_log).
Proof.
  intros Huser Hacc. unfold async_update_llm_data.
  rewrite bind_run, Huser, get_user_name_read_only. cbn [result chat_log_after emitted].
  rewrite bind_run, Hacc, collect_apis_read_only. done.
Qed.

(** What the publication sends out. *)
Lemma publish_events acc prompt_object prompt chat_log :
  emitted (publish acc prompt_object prompt chat_log)
    = publication_events acc prompt chat_log.
Proof.
  unfold publish, publication_events, selected_extra_system_prompt.
  rewrite bind_run. cbn [read_chat_log result chat_log_after emitted app].
  set (extra := py_or _ _).
  set (final := with_extra_system_prompt prompt extra).
  rewrite bind_run.
  assert (∃ evs,
    (match extra with
     | Some text =>
         if truthy extra
         then LOGGER_debug "Using extra system prompt: %s" [AStr text];;
              emit (update_current_trace ["extra_system_prompt"]);;
              mret (prompt +:+ nl +:+ text)
         else mret prompt
     | None => mret prompt
     end) chat_log
    = {| result := Ok final; chat_log_after := chat_log; emitted := evs |} ∧
    evs = match extra with
          | Some text =>
              if truthy extra
              then [Log DEBUG "Using extra system prompt: %s" [AStr text];
                    update_current_trace ["extra_system_prompt"]]
              else []
          | None => []
          end)
    as (evs & -> & ->).
  { unfold final, with_extra_system_prompt.
    destruct extra as [text|]; [destruct (truthy (Some text))|]; by eexists. }
  cbn [result chat_log_after emitted]. f_equal.
  rewrite bind_run.
  unfold combined_api_instance, effective_api, set_llm_api,
    set_extra_system_prompt, set_content_0.
  destruct (api_instances acc) as [|first [|second rest]];
    destruct (content chat_log) as [|message messages] eqn:Hcontent; simpl;
    by rewrite ?Hcontent.
Qed.

(** How far a turn gets: it ends in the lookup of the user, in the loop,
    in the prompt block, or it reaches the publication. *)
Lemma turn_phases llm_api_names chat_log :
  (∃ err,
     result (get_user_name chat_log) = Raise err ∧
     result (async_update_llm_data llm_api_names chat_log) = Raise err ∧
     chat_log_after (async_update_llm_data llm_api_names chat_log) = chat_log ∧
     emitted (async_update_llm_data llm_api_names chat_log)
       = emitted (get_user_name chat_log)) ∨
  (∃ user_name err,
     result (get_user_name chat_log) = Ok user_name ∧
     result (collect_apis user_name llm_api_names chat_log) = Raise err ∧
     result (async_update_llm_data llm_api_names chat_log) = Raise err ∧
     chat_log_after (async_update_llm_data llm_api_names chat_log) = chat_log ∧
     emitted (async_update_llm_data llm_api_names chat_log)
       = emitted (get_user_name chat_log) ++
         emitted (collect_apis user_name llm_api_names chat_log)) ∨
  (∃ user_name acc err,
     collects llm_api_names chat_log user_name acc ∧
     result (build_prompt user_name acc chat_log) = Raise err ∧
     result (async_update_llm_data llm_api_names chat_log) = Raise err ∧
     chat_log_after (async_update_llm_data llm_api_names chat_log) = chat_log ∧
     emitted (async_update_llm_data llm_api_names chat_log)
       = emitted (get_user_name chat_log) ++
         emitted (collect_apis user_name llm_api_names chat_log) ++
         emitted (build_prompt user_name acc chat_log)) ∨
  (∃ user_name acc prompt_object prompt,
     collects llm_api_names chat_log user_name acc ∧
     result (build_prompt user_name acc chat_log) = Ok (prompt_object, prompt) ∧
     result (async_update_llm_data llm_api_names chat_log)
       = result (publish acc prompt_object prompt chat_log) ∧
     chat_log_after (async_update_llm_data llm_api_names chat_log)
       = chat_log_after (publish acc prompt_object prompt chat_log) ∧
     emitted (async_update_llm_data llm_api_names chat_log)
       = emitted (get_user_name chat_log) ++
         emitted (collect_apis user_name llm_api_names chat_log) ++
         emitted (build_prompt user_name acc chat_log) ++
         publication_events acc prompt chat_log).
Proof.
  destruct (result (get_user_name chat_log)) as [user_name|err] eqn:Huser.
  2: { left. exists err. split; [done|]. by apply turn_raises_in_lookup. }
  right.
  destruct (result (collect_apis user_name llm_api_names chat_log))
    as [acc|err] eqn:Hacc.
  2: { left. exists user_name, err. split; [done|]. split; [done|].
       by apply turn_raises_in_collection. }
  right.
  assert (collects llm_api_names chat_log user_name acc) as Hcollects by done.
  destruct (result (build_prompt user_name acc chat_log))
    as [[prompt_object prompt]|err] eqn:Hbuild.
  - right. exists user_name, acc, prompt_object, prompt.
    split; [done|]. split; [done|].
    rewrite <- (publish_events acc prompt_object). by apply turn_published.
  - left. exists user_name, acc, err. split; [done|]. split; [done|].
    by apply turn_raises_in_prompt.
Qed.

Lemma filter_other_kind (b kind : Event → bool) (l : list Event) :
  Forall (λ ev, kind ev = true) l →
  (∀ ev, kind ev = true → b ev = false) →
  List.filter b l = [].
Proof.
  intros Hl Hkind. apply filter_none.
  eapply Forall_impl; [exact Hl|]. done.
Qed.

Lemma omap_other_kind {B} (f : Event → option B) (kind : Event → bool)
    (l : list Event) :
  Forall (λ ev, kind ev = true) l →
  (∀ ev, kind ev = true → f ev = None) →
  omap f l = [].
Proof.
  intros Hl Hkind. apply omap_none.
  eapply Forall_impl; [exact Hl|]. done.
Qed.

Lemma get_user_name_events :
  emits (λ ev, lookup_event ev = true) get_user_name.
Proof. unfold get_user_name. emits. Qed.

Lemma build_prompt_events user_name acc :
  emits (λ ev, prompt_event ev = true) (build_prompt user_name acc).
Proof.
  unfold build_prompt, prompt_block, except_TemplateError, await_prompt,
    LOGGER_debug, LOGGER_error.
  emits.
Qed.

Lemma publication_events_kind acc prompt chat_log :
  Forall (λ ev, publication_event ev = true) (publication_events acc prompt chat_log).
Proof.
  unfold publication_events.
  destruct (selected_extra_system_prompt chat_log) as [text|];
    [destruct (truthy (Some text))|];
    destruct (api_instances acc) as [|first [|second rest]];
    destruct (content chat_log);
    repeat constructor.
Qed.

(** The events of a turn, phase by phase. *)
Lemma turn_events llm_api_names chat_log :
  ∃ collecting prompting publishing,
    emitted (async_update_llm_data llm_api_names chat_log)
      = emitted (get_user_name chat_log) ++ collecting ++ prompting ++ publishing ∧
    Forall (λ ev, collection_event ev = true) collecting ∧
    Forall (λ ev, prompt_event ev = true) prompting ∧
    Forall (λ ev, publication_event ev = true) publishing.
Proof.
  destruct (turn_phases llm_api_names chat_log)
    as [(err & _ & _ & _ & ->)
       |[(user_name & err & _ & _ & _ & _ & ->)
        |[(user_name & acc & err & _ & _ & _ & _ & ->)
         |(user_name & acc & prompt_object & prompt & _ & _ & _ & _ & ->)]]].
  - exists [], [], []. by rewrite !app_nil_r.
  - exists (emitted (collect_apis user_name llm_api_names chat_log)), [], [].
    rewrite !app_nil_r. split; [done|]. split; [apply collect_apis_emitted|done].
  - exists (emitted (collect_apis user_name llm_api_names chat_log)),
      (emitted (build_prompt user_name acc chat_log)), [].
    rewrite !app_nil_r. split; [done|].
    split; [apply collect_apis_emitted|]. split; [apply build_prompt_events|done].
  - exists (emitted (collect_apis user_name llm_api_names chat_log)),
      (emitted (build_prompt user_name acc chat_log)),
      (publication_events acc prompt chat_log).
    split; [done|]. split; [apply collect_apis_emitted|].
    split; [apply build_prompt_events|apply publication_events_kind].
Qed.

Lemma get_user_name_consults chat_log :
  List.filter consults_user_store (emitted (get_user_name chat_log)) =
  match context user_input ≫= user_id with
  | Some uid => if truthy (Some uid) then [Await (auth_async_get_user uid)] else []
  | None => []
  end.
Proof.
  unfold get_user_name.
  destruct (context user_input) as [[[uid|]]|]; try done.
  cbn [user_id mbind option_bind]. destruct (truthy (Some uid)); [|done].
  rewrite bind_run. cbn [await result emitted].
  by destruct (async_get_user host uid) as [[user|]|].
Qed.

(** X1.  The user store is asked once, for the user id of the context,
    when the request has a context with a non-empty user id, and is not
    asked at all otherwise (lines 46-53); no later step of the turn asks
    it. *)
Theorem X1_user_store_asked_once llm_api_names chat_log :
  List.filter consults_user_store
    (emitted (async_update_llm_data llm_api_names chat_log)) =
  match context user_input ≫= user_id with
  | Some uid => if truthy (Some uid) then [Await (auth_async_get_user uid)] else []
  | None => []
  end.
Proof.
  destruct (turn_events llm_api_names chat_log)
    as (collecting & prompting & publishing & -> & Hc & Hp & Hpub).
  rewrite !List.filter_app, get_user_name_consults.
  rewrite (filter_other_kind _ _ _ Hc) by (by intros [| [] | |]).
  rewrite (filter_other_kind _ _ _ Hp) by (by intros [| [] | |]).
  rewrite (filter_other_kind _ _ _ Hpub) by (by intros [| [] | |]).
  by rewrite !app_nil_r.
Qed.

(** The chat log after a turn: as it was, or as the publication leaves
    it. *)
Lemma turn_chat_log_cases llm_api_names chat_log :
  chat_log_after (async_update_llm_data llm_api_names chat_log) = chat_log ∨
  ∃ user_name acc prompt_object prompt,
    collects llm_api_names chat_log user_name acc ∧
    result (build_prompt user_name acc chat_log) = Ok (prompt_object, prompt) ∧
    let final :=
      with_extra_system_prompt prompt (selected_extra_system_prompt chat_log) in
    chat_log_after (async_update_llm_data llm_api_names chat_log) =
      {| conversation_id := conversation_id chat_log;
         content := <[0:=SystemContent final]> (content chat_log);
         extra_system_prompt := selected_extra_system_prompt chat_log;
         llm_api := effective_api acc final |}.
Proof.
  destruct (turn_phases llm_api_names chat_log)
    as [(err & _ & _ & -> & _)
       |[(user_name & err & _ & _ & _ & -> & _)
        |[(user_name & acc & err & _ & _ & _ & -> & _)
         |(user_name & acc & prompt_object & prompt & Hc & Hb & _ & -> & _)]]];
    try by left.
  right. exists user_name, acc, prompt_object, prompt.
  split; [done|]. split; [done|].
  apply publish_run.
Qed.

(** X2.  Whatever the outcome of a turn, returned or raised, the
    conversation id, the number of messages and every message but the first
    are as they were: the turn writes [llm_api], [extra_system_prompt] and
    [content[0]] only (lines 182-201). *)
Theorem X2_turn_frame llm_api_names chat_log :
  let after := chat_log_after (async_update_llm_data llm_api_names chat_log) in
  conversation_id after = conversation_id chat_log ∧
  length (content after) = length (content chat_log) ∧
  ∀ i, 0 < i → content after !! i = content chat_log !! i.
Proof.
  intros after. unfold after.
  destruct (turn_chat_log_cases llm_api_names chat_log)
    as [->|(user_name & acc & prompt_object & prompt & _ & _ & ->)]; [done|].
  cbn [conversation_id content]. split; [done|].
  split; [apply length_insert|].
  intros i Hi. apply list_lookup_insert_ne. lia.
Qed.

(** X3.  A turn that raises has sent no trace record.  When it raises
    after the prompt block has returned, the exception is the [IndexError] of
    line 201 on an empty list of messages, and lines 182-200 have run:
    [llm_api] and [extra_system_prompt] hold their new values although the
    turn failed.  A turn that raises earlier leaves the chat log as it
    was. *)
Theorem X3_raising_turn_leaves_chat_log llm_api_names chat_log err :
  result (async_update_llm_data llm_api_names chat_log) = Raise err →
  List.filter conversation_trace
    (emitted (async_update_llm_data llm_api_names chat_log)) = [] ∧
  (∀ user_name acc prompt_object prompt,
     collects llm_api_names chat_log user_name acc →
     result (build_prompt user_name acc chat_log) = Ok (prompt_object, prompt) →
     let final :=
       with_extra_system_prompt prompt (selected_extra_system_prompt chat_log) in
     err = IndexError ∧
     content chat_log = [] ∧
     chat_log_after (async_update_llm_data llm_api_names chat_log) =
       {| conversation_id := conversation_id chat_log;
          content := [];
          extra_system_prompt := selected_extra_system_prompt chat_log;
          llm_api := effective_api acc final |}) ∧
  ((∀ user_name acc prompt_object prompt,
      collects llm_api_names chat_log user_name acc →
      result (build_prompt user_name acc chat_log) ≠ Ok (prompt_object, prompt)) →
   chat_log_after (async_update_llm_data llm_api_names chat_log) = chat_log).
Proof.
  intros Hraise. split; [|split].
  - destruct (turn_events llm_api_names chat_log)
      as (collecting & prompting & publishing & Hev & Hc & Hp & Hpub).
    destruct (List.filter conversation_trace
                (emitted (async_update_llm_data llm_api_names chat_log)))
      as [|record records] eqn:Hrecords; [done|].
    exfalso.
    destruct (turn_phases llm_api_names chat_log)
      as [(err' & _ & _ & _ & Hev')
         |[(user_name & err' & _ & _ & _ & _ & Hev')
          |[(user_name & acc & err' & _ & _ & _ & _ & Hev')
           |(user_name & acc & prompt_object & prompt & _ & _ & Hres & _ & Hev')]]];
      rewrite Hev', ?List.filter_app in Hrecords;
      rewrite (filter_other_kind _ _ _ (get_user_name_events chat_log)) in Hrecords
        by (by intros [| [] | |]);
      rewrite ?(filter_other_kind _ _ _ (collect_apis_emitted _ _ _ _ _ _ chat_log))
        in Hrecords by (by intros [| [] | |]);
      rewrite ?(filter_other_kind _ _ _ (build_prompt_events _ _ chat_log))
        in Hrecords by (by intros [| [] | |]);
      try done.
    destruct (publish_run host user_input acc prompt_object prompt chat_log)
      as [_ Hresult].
    rewrite Hraise in Hres. rewrite <- Hres in Hresult.
    unfold publication_events in Hrecords.
    destruct (content chat_log) as [|message messages]; [|done].
    destruct (selected_extra_system_prompt chat_log) as [text|];
      [destruct (truthy (Some text))|];
      by destruct (api_instances acc) as [|first [|second rest]].
  - intros user_name acc prompt_object prompt Hcollects Hbuild final.
    destruct (turn_chat_log host hass user_input config_entry
                _ _ _ _ _ _ Hcollects Hbuild) as [Hlog Hres].
    rewrite Hraise in Hres.
    destruct (content chat_log) as [|message messages] eqn:Hcontent; [|done].
    injection Hres as ->. split; [done|]. split; [done|].
    by rewrite Hlog.
  - intros Hearlier.
    destruct (turn_phases llm_api_names chat_log)
      as [(err' & _ & _ & Hlog & _)
         |[(user_name & err' & _ & _ & _ & Hlog & _)
          |[(user_name & acc & err' & _ & _ & _ & Hlog & _)
           |(user_name & acc & prompt_object & prompt & Hc & Hb & _)]]];
      try done.
    by destruct (Hearlier _ _ _ _ Hc Hb).
Qed.

(** X4.  A turn that returns has sent one trace record, as its last event,
    with the messages and the tools of the instance that are on the chat log
    when it returns (lines 202-208). *)
Theorem X4_trace_record_of_returning_turn llm_api_names chat_log prompt_object :
  result (async_update_llm_data llm_api_names chat_log) = Ok prompt_object →
  let after := chat_log_after (async_update_llm_data llm_api_names chat_log) in
  let record :=
    async_conversation_trace_append (content after) (tools <$> llm_api after) in
  List.filter conversation_trace
    (emitted (async_update_llm_data llm_api_names chat_log)) = [record] ∧
  ∃ before,
    emitted (async_update_llm_data llm_api_names chat_log) = before ++ [record].
Proof.
  intros Hret after record. unfold record, after. clear record after.
  destruct (turn_phases llm_api_names chat_log)
    as [(err' & _ & Hres & _)
       |[(user_name & err' & _ & _ & Hres & _)
        |[(user_name & acc & err' & _ & _ & Hres & _)
         |(user_name & acc & prompt_object' & prompt & Hc & Hb & Hres & Hlog & Hev)]]];
    try congruence.
  destruct (publish_run host user_input acc prompt_object' prompt chat_log)
    as [Hafter Hpub].
  rewrite Hret in Hres. rewrite <- Hres in Hpub.
  destruct (content chat_log) as [|message messages] eqn:Hcontent; [done|].
  rewrite Hlog, Hafter, Hev. cbn [content llm_api].
  unfold publication_events, selected_extra_system_prompt. rewrite Hcontent.
  split.
  - rewrite !List.filter_app.
    rewrite (filter_other_kind _ _ _ (get_user_name_events chat_log))
      by (by intros [| [] | |]).
    rewrite (filter_other_kind _ _ _ (collect_apis_emitted _ _ _ _ _ _ chat_log))
      by (by intros [| [] | |]).
    rewrite (filter_other_kind _ _ _ (build_prompt_events _ _ chat_log))
      by (by intros [| [] | |]).
    destruct (py_or _ _) as [text|];
      [destruct (truthy (Some text))|];
      destruct (api_instances acc) as [|first [|second rest]]; reflexivity.
  - eexists. by rewrite !(assoc_L (++)).
Qed.

(** X5.  A turn that reaches the publication tags the trace with
    "extra_system_prompt" once when the selected extra system prompt is
    non-empty, and not at all otherwise (lines 173-176); this holds also
    when the turn then raises on an empty list of messages. *)
Theorem X5_trace_tagged_for_extra_prompt
    llm_api_names chat_log user_name acc prompt_object prompt :
  collects llm_api_names chat_log user_name acc →
  result (build_prompt user_name acc chat_log) = Ok (prompt_object, prompt) →
  List.filter tags_trace
    (emitted (async_update_llm_data llm_api_names chat_log)) =
  if truthy (selected_extra_system_prompt chat_log)
  then [update_current_trace ["extra_system_prompt"]]
  else [].
Proof.
  intros Hcollects Hbuild.
  destruct (turn_published _ _ _ _ _ _ _ _ _ _ Hcollects Hbuild) as (_ & _ & ->).
  rewrite publish_events, !List.filter_app.
  rewrite (filter_other_kind _ _ _ (get_user_name_events chat_log))
    by (by intros [| [] | |]).
  rewrite (filter_other_kind _ _ _ (collect_apis_emitted _ _ _ _ _ _ chat_log))
    by (by intros [| [] | |]).
  rewrite (filter_other_kind _ _ _ (build_prompt_events _ _ chat_log))
    by (by intros [| [] | |]).
  unfold publication_events.
  destruct (selected_extra_system_prompt chat_log) as [text|];
    [destruct (truthy (Some text))|];
    destruct (api_instances acc) as [|first [|second rest]];
    destruct (content chat_log); reflexivity.
Qed.

(** One round of the loop makes the call of its name, and no other. *)
Lemma collect_api_calls user_name acc api_name chat_log :
  omap resolution_of
       (emitted (collect_api host hass user_input config_entry user_name
                   acc api_name chat_log))
  = [resolution_call user_name api_name].
Proof.
  unfold collect_api, get_llm_api, resolution_call, custom_llm_api, await_prompt,
    except_HomeAssistantError.
  rewrite !bind_run. simpl.
  repeat (match goal with
          | |- context [match ?x with _ => _ end] => destruct x
          | |- context [if ?b then _ else _] => destruct b
          end; simpl);
    reflexivity.
Qed.

Lemma for_api_names_calls user_name names acc chat_log :
  omap resolution_of
       (emitted (for_api_names host hass user_input config_entry user_name
                   names acc chat_log))
    `prefix_of` (resolution_call user_name <$> names) ∧
  (is_Ok (result (for_api_names host hass user_input config_entry user_name
                    names acc chat_log)) →
   omap resolution_of
        (emitted (for_api_names host hass user_input config_entry user_name
                    names acc chat_log))
   = resolution_call user_name <$> names).
Proof.
  revert acc chat_log.
  induction names as [|api_name names IH]; intros acc chat_log.
  { split; [apply prefix_nil|done]. }
  cbn [for_api_names]. rewrite bind_run.
  pose proof (collect_api_calls user_name acc api_name chat_log) as Hstep.
  destruct (result (collect_api _ _ _ _ _ acc api_name chat_log)) as [acc1|err];
    cbn [result emitted].
  - rewrite omap_app, Hstep.
    destruct (IH acc1 (chat_log_after
                (collect_api host hass user_input config_entry user_name
                   acc api_name chat_log))) as [Hprefix Hall].
    split; [by apply prefix_cons|].
    intros Hok. cbn [fmap list_fmap app]. f_equal. by apply Hall.
  - rewrite Hstep. split; [|done].
    apply prefix_cons, prefix_nil.
Qed.

(** X6.  The loop asks for the providers in the order of the requested
    names and asks for no name twice: the reserved name is always built as a
    [CustomLLMAPI] with the name of the user, the config entry and the
    Langfuse client of [hass.data], every other name is always looked up in
    the registry, and both get the LLM context of the turn.  When the loop
    ends normally every name was asked for; when an exception leaves it, the
    names after the failing one were not (lines 61-84). *)
Theorem X6_providers_asked_in_order user_name llm_api_names chat_log :
  let calls :=
    omap resolution_of (emitted (collect_apis user_name llm_api_names chat_log)) in
  calls `prefix_of` (resolution_call user_name <$> default [] llm_api_names) ∧
  (is_Ok (result (collect_apis user_name llm_api_names chat_log)) →
   calls = resolution_call user_name <$> default [] llm_api_names).
Proof.
  destruct llm_api_names as [[|api_name names]|];
    try (split; [apply prefix_nil|done]).
  apply for_api_names_calls.
Qed.

Lemma hass_langfuse_client_lookup :
  hass_langfuse_client host hass config_entry =
  match data hass !! DOMAIN host with
  | Some entries =>
      match entries !! entry_id config_entry with
      | Some entry_data => entry_data !! "langfuse_client"
      | None => None
      end
  | None => None
  end.
Proof.
  unfold hass_langfuse_client.
  destruct (data hass !! DOMAIN host) as [entries|]; simpl; [|done].
  by destruct (entries !! entry_id config_entry) as [entry_data|].
Qed.

(** X7.  For the reserved name the function looks up [hass.data] under
    the domain, the entry id and the key "langfuse_client", and tests what
    it finds for truth: a stored object that tests true is attached to the
    [CustomLLMAPI] and the attachment is logged; when the domain, the entry
    or the key is missing, or the stored object tests false, there is no
    client, nothing is raised, and the record of the attachment is not
    logged (lines 63-77). *)
Theorem X7_langfuse_client_attached_when_truthy user_name chat_log :
  let stored :=
    match data hass !! DOMAIN host with
    | Some entries =>
        match entries !! entry_id config_entry with
        | Some entry_data => entry_data !! "langfuse_client"
        | None => None
        end
    | None => None
    end in
  let client :=
    match stored with
    | Some object => if client_bool object then Some object else None
    | None => None
    end in
  emitted (get_llm_api host hass user_input config_entry user_name
             (LLM_API_ID host) chat_log) =
  [Log DEBUG "Using Custom LLM API for request" []] ++
  match client with
  | Some _ => [Log DEBUG "Setting langfuse client for Custom LLM API" []]
  | None => []
  end ++
  [Await (custom_async_get_api_instance
            {| custom_user_name := user_name;
               conversation_config_entry := config_entry;
               langfuse_client := client |}
            (new_llm_context host user_input))].
Proof.
  cbv zeta. rewrite <- hass_langfuse_client_lookup.
  unfold get_llm_api. rewrite String.eqb_refl.
  by destruct (hass_langfuse_client host hass config_entry) as [[key []]|].
Qed.

(** One round of the loop returns unless its name breaks the loop. *)
Lemma collect_api_returns_iff user_name acc api_name chat_log :
  is_Ok (result (collect_api host hass user_input config_entry user_name
                   acc api_name chat_log)) ↔
  ¬ breaks_loop user_name api_name.
Proof.
  rewrite collect_api_result. unfold breaks_loop.
  destruct (resolve user_name api_name) as [llm_api|err]; cbn zeta;
    [unfold awaited;
     destruct (api_prompt llm_api) as [outcome|text];
     [destruct (outcome 0) as [p|err]|]|];
    try destruct (isinstance_HomeAssistantError err);
    simpl; naive_solver.
Qed.

Lemma for_api_names_returns_iff user_name names acc chat_log :
  is_Ok (result (for_api_names host hass user_input config_entry user_name
                   names acc chat_log)) ↔
  Forall (λ api_name, ¬ breaks_loop user_name api_name) names.
Proof.
  revert acc chat_log.
  induction names as [|api_name names IH]; intros acc chat_log.
  { by split. }
  cbn [for_api_names]. rewrite bind_run, Forall_cons.
  rewrite <- (collect_api_returns_iff user_name acc api_name chat_log).
  destruct (result (collect_api _ _ _ _ _ acc api_name chat_log)) as [acc1|err];
    cbn [result is_Ok].
  - rewrite IH. tauto.
  - tauto.
Qed.

Lemma collect_apis_returns_iff user_name llm_api_names chat_log :
  is_Ok (result (collect_apis user_name llm_api_names chat_log)) ↔
  Forall (λ api_name, ¬ breaks_loop user_name api_name) (default [] llm_api_names).
Proof.
  destruct llm_api_names as [[|api_name names]|]; try by split.
  apply for_api_names_returns_iff.
Qed.

(** X8.  The loop ends normally exactly when no requested name breaks it,
    that is when every exception of a resolution or of the await of a prompt
    is a [HomeAssistantError] and no resolved instance has a plain string
    for its prompt.  A name that breaks it ends the turn with an exception
    that is not a [HomeAssistantError]: the chat log is untouched, the base
    prompt is not rendered and no trace record is sent (lines 62-105). *)
Theorem X8_loop_returns_unless_broken user_name llm_api_names chat_log :
  (is_Ok (result (collect_apis user_name llm_api_names chat_log)) ↔
   Forall (λ api_name, ¬ breaks_loop user_name api_name)
          (default [] llm_api_names)) ∧
  (result (get_user_name chat_log) = Ok user_name →
   ∀ api_name,
     api_name ∈ default [] llm_api_names →
     breaks_loop user_name api_name →
     ∃ err,
       result (async_update_llm_data llm_api_names chat_log) = Raise err ∧
       isinstance_HomeAssistantError err = false ∧
       chat_log_after (async_update_llm_data llm_api_names chat_log) = chat_log ∧
       Forall (λ ev, renders_base_prompt ev = false ∧ trace_record ev = false)
              (emitted (async_update_llm_data llm_api_names chat_log))).
Proof.
  split; [apply collect_apis_returns_iff|].
  intros Huser api_name Hin Hbreaks.
  pose proof (collect_apis_result host hass user_input config_entry user_name
                llm_api_names chat_log) as Hres.
  destruct (result (collect_apis user_name llm_api_names chat_log))
    as [acc|err] eqn:Hacc.
  { assert (is_Ok (result (collect_apis user_name llm_api_names chat_log))) as Hok
      by (by rewrite Hacc).
    apply collect_apis_returns_iff in Hok.
    rewrite Forall_forall in Hok. by destruct (Hok api_name Hin). }
  exists err.
  destruct (turn_raises_in_collection _ _ _ _ Huser Hacc) as (-> & -> & ->).
  split; [done|]. split; [done|]. split; [done|].
  apply Forall_app; split.
  - apply get_user_name_emitted.
  - eapply Forall_impl; [apply collect_apis_emitted|].
    intros ev. apply collection_event_neither.
Qed.

(** X9.  When the [CustomLLMAPI] is the only provider, line 124 awaits its
    prompt a second time, outside of the handler of the loop: when that
    await raises, whatever the first one gave, the turn raises.  A
    [TemplateError] becomes the [ConverseError] of lines 157-166 although no
    base prompt was rendered; any other exception leaves as it is, the
    [RuntimeError] of a coroutine object awaited again among them; the chat
    log is untouched and no trace record is sent. *)
Theorem X9_sole_custom_prompt_failure_ends_turn
    llm_api_names chat_log user_name acc provider err :
  collects llm_api_names chat_log user_name acc →
  api_instances acc = [provider] →
  isinstance_CustomLLMAPI (api provider) = true →
  awaited provider 1 = Raise err →
  result (async_update_llm_data llm_api_names chat_log) =
    Raise (if isinstance_TemplateError err
           then ConverseError "Error rendering prompt" (conversation_id chat_log)
                  {| response_language := language user_input;
                     error_code := Some UNKNOWN;
                     speech := Some "Sorry, I had a problem with my template" |}
           else err) ∧
  chat_log_after (async_update_llm_data llm_api_names chat_log) = chat_log ∧
  Forall (λ ev, renders_base_prompt ev = false ∧ trace_record ev = false)
         (emitted (async_update_llm_data llm_api_names chat_log)).
Proof.
  intros Hcollects Hinst Hcustom Hprompt.
  destruct (prompt_block_sole_custom_raises host hass config_entry user_name
              acc provider err chat_log Hinst Hcustom Hprompt) as [Hblock Hevents].
  destruct (build_prompt_raises host hass user_input config_entry user_name
              acc err chat_log Hblock) as [Hbuild Hemitted].
  destruct (turn_raises_in_prompt _ _ _ _ _ _ _ _ _ Hcollects Hbuild)
    as (-> & -> & ->).
  split; [by destruct (isinstance_TemplateError err)|]. split; [done|].
  rewrite !Forall_app. split_and!.
  - apply get_user_name_emitted.
  - eapply Forall_impl; [apply collect_apis_emitted|].
    intros ev. apply collection_event_neither.
  - rewrite Hemitted, Forall_app. split; [done|].
    destruct (isinstance_TemplateError err); by repeat constructor.
Qed.

Lemma collect_apis_emits P user_name llm_api_names :
  (∀ acc api_name,
     emits P (collect_api host hass user_input config_entry user_name acc api_name)) →
  emits P (collect_apis user_name llm_api_names).
Proof.
  intros Hstep.
  destruct llm_api_names as [[|api_name names]|]; try apply emits_ret.
  unfold collect_apis. generalize (api_name :: names) as all_names.
  generalize nothing_collected as acc.
  intros acc all_names. revert acc.
  induction all_names as [|name rest IH]; intros acc.
  - apply emits_ret.
  - apply emits_bind; [apply Hstep | done].
Qed.

Lemma collect_apis_no_rendering_record user_name llm_api_names :
  emits (λ ev, rendering_error_record ev = false) (collect_apis user_name llm_api_names).
Proof.
  apply collect_apis_emits. intros acc api_name.
  unfold collect_api, get_llm_api, await_prompt, except_HomeAssistantError,
    LOGGER_debug, LOGGER_error.
  emits.
Qed.

Lemma prompt_block_base_raises_events user_name acc err chat_log :
  ¬ sole_custom_api (api_instances acc) →
  base_prompt user_name = Raise err →
  emitted (prompt_block user_name acc chat_log) = [base_prompt_call user_name].
Proof.
  intros Hnot Hbase. unfold prompt_block.
  rewrite (line_121_test_false _ Hnot).
  fold (base_prompt user_name).
  by destruct (api_instances acc) as [|first rest];
    rewrite bind_run; simpl; rewrite Hbase.
Qed.

(** X10.  An exception of the rendering of the base prompt that is not a
    [TemplateError] leaves the turn as it is, a [HomeAssistantError]
    included: the handler of the prompt block takes [TemplateError] only,
    and that of the loop does not reach here.  Nothing is logged about the
    rendering, the chat log is untouched and no trace record is sent
    (lines 129-166). *)
Theorem X10_other_rendering_errors_propagate
    llm_api_names chat_log user_name acc err :
  collects llm_api_names chat_log user_name acc →
  ¬ sole_custom_api (api_instances acc) →
  base_prompt user_name = Raise err →
  isinstance_TemplateError err = false →
  result (async_update_llm_data llm_api_names chat_log) = Raise err ∧
  chat_log_after (async_update_llm_data llm_api_names chat_log) = chat_log ∧
  Forall (λ ev, rendering_error_record ev = false ∧ trace_record ev = false)
         (emitted (async_update_llm_data llm_api_names chat_log)).
Proof.
  intros Hcollects Hnot Hbase Hother.
  destruct (prompt_block_base_raises host hass config_entry user_name
              acc err chat_log Hnot Hbase) as [Hblock _].
  destruct (build_prompt_raises host hass user_input config_entry user_name
              acc err chat_log Hblock) as [Hbuild Hemitted].
  rewrite Hother in Hbuild, Hemitted.
  rewrite app_nil_r, (prompt_block_base_raises_events _ _ _ _ Hnot Hbase) in Hemitted.
  destruct (turn_raises_in_prompt _ _ _ _ _ _ _ _ _ Hcollects Hbuild)
    as (-> & -> & ->).
  split; [done|]. split; [done|].
  rewrite !Forall_app. split_and!.
  - eapply Forall_impl; [apply get_user_name_events|]. by intros [| [] | |].
  - apply Forall_and; split; [apply collect_apis_no_rendering_record|].
    eapply Forall_impl; [apply collect_apis_emitted|].
    intros ev Hev. by apply collection_event_neither in Hev as [_ ?].
  - rewrite Hemitted. by repeat constructor.
Qed.

(** X11.  When exactly one provider resolves, whichever it is, the instance
    put on the chat log is that provider's own instance, unchanged: it keeps
    its own prompt, tools and serializer, also when the published prompt was
    combined from the base prompt and its fragment (lines 179-182). *)
Theorem X11_single_provider_installed_unchanged
    llm_api_names chat_log user_name acc provider prompt_object prompt :
  collects llm_api_names chat_log user_name acc →
  api_instances acc = [provider] →
  result (build_prompt user_name acc chat_log) = Ok (prompt_object, prompt) →
  llm_api (chat_log_after (async_update_llm_data llm_api_names chat_log))
    = Some provider.
Proof.
  intros Hcollects Hinst Hbuild.
  destruct (turn_chat_log host hass user_input config_entry
              _ _ _ _ _ _ Hcollects Hbuild) as [-> _].
  cbn [llm_api]. unfold effective_api. by rewrite Hinst.
Qed.

(** What the prompt block sends out outside of policy 1: the rendering of
    the base prompt, once. *)
Lemma build_prompt_renders_once user_name acc chat_log :
  ¬ sole_custom_api (api_instances acc) →
  List.filter renders_base_prompt (emitted (build_prompt user_name acc chat_log))
    = [base_prompt_call user_name] ∧
  List.filter awaits_api_prompt (emitted (build_prompt user_name acc chat_log)) = [].
Proof.
  intros Hnot. unfold build_prompt, prompt_block, base_prompt_call.
  rewrite (line_121_test_false _ Hnot).
  rewrite bind_run. cbn [try result chat_log_after emitted].
  destruct (api_instances acc) as [|first rest];
    rewrite bind_run; cbn [await result chat_log_after emitted];
    (destruct (async_get_base_prompt host _ config_entry) as [[text|object text]|err];
     [| |unfold except_TemplateError; simpl;
         destruct (isinstance_TemplateError err)]);
    split; reflexivity.
Qed.

(** X12.  Outside of policy 1 the base prompt is rendered exactly once in a
    turn that gets past the loop, whether the turn then returns or raises,
    and the prompt manager gets the location name of the installation, the
    name of the user and the config entry (lines 110-114, 131, 141). *)
Theorem X12_base_prompt_rendered_once llm_api_names chat_log user_name acc :
  collects llm_api_names chat_log user_name acc →
  ¬ sole_custom_api (api_instances acc) →
  List.filter renders_base_prompt
    (emitted (async_update_llm_data llm_api_names chat_log))
  = [Await (prompt_manager_async_get_base_prompt
              {| ha_name := location_name hass; prompt_user_name := user_name |}
              config_entry)].
Proof.
  intros Hcollects Hnot.
  destruct (build_prompt_renders_once user_name acc chat_log Hnot) as [Hbuild _].
  assert (List.filter renders_base_prompt (emitted (get_user_name chat_log)) = [])
    as Huser
    by (apply (filter_other_kind _ _ _ (get_user_name_events chat_log));
        by intros [| [] | |]).
  assert (List.filter renders_base_prompt
            (emitted (collect_apis user_name llm_api_names chat_log)) = [])
    as Hloop
    by (apply (filter_other_kind _ _ _ (collect_apis_emitted _ _ _ _ _ _ chat_log));
        by intros [| [] | |]).
  destruct (result (build_prompt user_name acc chat_log))
    as [[prompt_object prompt]|err] eqn:Hres.
  - destruct (turn_published _ _ _ _ _ _ _ _ _ _ Hcollects Hres) as (_ & _ & ->).
    rewrite !List.filter_app, Huser, Hloop, Hbuild, publish_events.
    by rewrite (filter_other_kind _ _ _ (publication_events_kind acc prompt chat_log))
      by (by intros [| [] | |]).
  - destruct (turn_raises_in_prompt _ _ _ _ _ _ _ _ _ Hcollects Hres) as (_ & _ & ->).
    by rewrite !List.filter_app, Huser, Hloop, Hbuild.
Qed.

(** What a returned prompt block tells: which prompt it took. *)
Lemma prompt_block_returns user_name acc prompt_object prompt chat_log :
  result (prompt_block user_name acc chat_log) = Ok (prompt_object, prompt) →
  (∃ llm_api p,
     api_instances acc = [llm_api] ∧
     isinstance_CustomLLMAPI (api llm_api) = true ∧
     awaited llm_api 1 = Ok p ∧
     prompt_object = prompt_object_of p ∧ prompt = prompt_text p) ∨
  (¬ sole_custom_api (api_instances acc) ∧
   ∃ p, base_prompt user_name = Ok p ∧ prompt_object = prompt_object_of p).
Proof.
  unfold prompt_block.
  destruct (existsb _ _ && _) eqn:Htest.
  - apply line_121_test in Htest as (llm_api & Hinst & Hcustom).
    rewrite Hinst, bind_run, await_prompt_result. intros Hres. left.
    exists llm_api.
    destruct (awaited llm_api 1) as [p|err]; [|done].
    exists p. destruct p; simpl in Hres; injection Hres as <- <-; done.
  - assert (¬ sole_custom_api (api_instances acc)) as Hnot.
    { intros Hsole. apply line_121_test in Hsole. congruence. }
    intros Hres. right. split; [done|]. unfold base_prompt.
    destruct (api_instances acc) as [|first rest];
      rewrite bind_run in Hres; cbn [await result chat_log_after] in Hres;
      (destruct (async_get_base_prompt host _ config_entry) as [p|err]; [|done]);
      exists p; destruct p; simpl in Hres; by injection Hres as <- _.
Qed.

Lemma build_prompt_returns user_name acc v chat_log :
  result (build_prompt user_name acc chat_log) = Ok v →
  result (prompt_block user_name acc chat_log) = Ok v.
Proof.
  intros Hbuild.
  destruct (result (prompt_block user_name acc chat_log)) as [v'|err] eqn:Hblock.
  - apply (build_prompt_ok host hass user_input) in Hblock as [Hbuild' _].
    congruence.
  - apply (build_prompt_raises host hass user_input) in Hblock as [Hbuild' _].
    congruence.
Qed.

(** X13.  The prompt object that a turn returns is the one of the prompt
    it took whole: that of the [CustomLLMAPI] when it is the only provider,
    else that of the base prompt.  A prompt object that came with the
    fragment of a provider in a combined prompt is never returned
    (lines 91-92, 125-127, 135-137, 145-146, 209). *)
Theorem X13_returned_prompt_object llm_api_names chat_log prompt_object :
  result (async_update_llm_data llm_api_names chat_log) = Ok prompt_object →
  ∃ user_name acc,
    collects llm_api_names chat_log user_name acc ∧
    ((∃ provider p,
        api_instances acc = [provider] ∧
        isinstance_CustomLLMAPI (api provider) = true ∧
        awaited provider 1 = Ok p ∧
        prompt_object = prompt_object_of p) ∨
     (¬ sole_custom_api (api_instances acc) ∧
      ∃ p, base_prompt user_name = Ok p ∧ prompt_object = prompt_object_of p)).
Proof.
  intros Hret.
  destruct (turn_returns _ _ _ _ _ _ _ Hret)
    as (user_name & acc & prompt & Hcollects & Hbuild & _).
  exists user_name, acc. split; [done|].
  apply build_prompt_returns in Hbuild.
  destruct (prompt_block_returns _ _ _ _ _ Hbuild)
    as [(provider & p & ? & ? & ? & ? & _)|?]; [left|by right].
  by exists provider, p.
Qed.

(** The awaits of prompts, in one round of the loop and in the loop. *)
Lemma get_llm_api_no_prompt user_name api_name :
  emits (λ ev, prompt_awaited_by ev = None)
        (get_llm_api host hass user_input config_entry user_name api_name).
Proof. unfold get_llm_api, LOGGER_debug. emits. Qed.

Lemma collect_api_awaits user_name acc api_name chat_log :
  omap prompt_awaited_by
    (emitted (collect_api host hass user_input config_entry user_name
                acc api_name chat_log)) =
  match resolve user_name api_name with
  | Ok llm_api =>
      match api_prompt llm_api with
      | Awaitable _ => [(llm_api, 0)]
      | PromptText _ => []
      end
  | Raise _ => []
  end.
Proof.
  unfold collect_api. rewrite omap_bind.
  cbn [try result chat_log_after emitted].
  rewrite (omap_none _ _ (get_llm_api_no_prompt user_name api_name chat_log)).
  rewrite get_llm_api_result.
  destruct (resolve user_name api_name) as [llm_api|err]; cbn [app].
  - rewrite omap_bind. unfold await_prompt, except_HomeAssistantError.
    destruct (api_prompt llm_api) as [outcome|text]; simpl; [|done].
    destruct (outcome 0) as [p|err]; simpl; [done|].
    by destruct (isinstance_HomeAssistantError err).
  - unfold except_HomeAssistantError.
    by destruct (isinstance_HomeAssistantError err).
Qed.

Lemma for_api_names_awaits user_name names acc chat_log :
  is_Ok (result (for_api_names host hass user_input config_entry user_name
                   names acc chat_log)) →
  omap prompt_awaited_by
    (emitted (for_api_names host hass user_input config_entry user_name
                names acc chat_log))
  = (λ llm_api, (llm_api, 0)) <$> omap (resolved user_name) names.
Proof.
  revert acc chat_log.
  induction names as [|api_name names IH]; intros acc chat_log Hok; [done|].
  cbn [for_api_names] in *. rewrite omap_bind. rewrite bind_run in Hok.
  pose proof (collect_api_returns_iff user_name acc api_name chat_log) as Hstep.
  rewrite collect_api_awaits.
  destruct (result (collect_api _ _ _ _ _ acc api_name chat_log)) as [acc1|err];
    cbn [result] in Hok; [|done].
  rewrite (IH _ _ Hok).
  assert (¬ breaks_loop user_name api_name) as Hkeeps by (by apply Hstep).
  unfold breaks_loop in Hkeeps.
  destruct (resolve user_name api_name) as [llm_api|err] eqn:Hres.
  - rewrite (omap_cons_Some _ _ llm_api) by (unfold resolved; by rewrite Hres).
    destruct (api_prompt llm_api) as [outcome|text]; [done|].
    by destruct Hkeeps.
  - by rewrite omap_cons_None by (unfold resolved; by rewrite Hres).
Qed.

(** A collected provider has an awaitable prompt. *)
Lemma collected_prompt_awaitable llm_api_names chat_log user_name acc llm_api :
  collects llm_api_names chat_log user_name acc →
  llm_api ∈ api_instances acc →
  ∃ outcome, api_prompt llm_api = Awaitable outcome.
Proof.
  intros Hcollects Hin.
  destruct (collects_accumulators host hass user_input config_entry
              _ _ _ _ Hcollects) as (Hres & _ & _).
  rewrite Hres in Hin.
  apply list_elem_of_omap in Hin as (api_name & Hin & Hsome).
  destruct Hcollects as [_ Hacc].
  assert (is_Ok (result (collect_apis user_name llm_api_names chat_log))) as Hok
    by (by rewrite Hacc).
  apply collect_apis_returns_iff in Hok.
  rewrite Forall_forall in Hok. specialize (Hok api_name Hin).
  unfold breaks_loop in Hok. unfold resolved in Hsome.
  destruct (resolve user_name api_name) as [llm_api'|err]; [|done].
  injection Hsome as ->.
  destruct (api_prompt llm_api) as [outcome|text]; [by exists outcome|].
  by destruct Hok.
Qed.

(** The awaits of prompts in the prompt block: the second await of the
    sole [CustomLLMAPI] instance, and no other. *)
Lemma build_prompt_awaits user_name acc chat_log :
  (∀ llm_api, llm_api ∈ api_instances acc →
     ∃ outcome, api_prompt llm_api = Awaitable outcome) →
  omap prompt_awaited_by (emitted (build_prompt user_name acc chat_log)) =
  match api_instances acc with
  | [llm_api] => if isinstance_CustomLLMAPI (api llm_api) then [(llm_api, 1)] else []
  | _ => []
  end.
Proof.
  intros Hawaitable. unfold build_prompt, prompt_block.
  destruct (existsb _ _ && _) eqn:Htest.
  - apply line_121_test in Htest as (llm_api & Hinst & Hcustom).
    destruct (Hawaitable llm_api) as [outcome Hprompt].
    { rewrite Hinst. apply list_elem_of_here. }
    rewrite Hinst, Hcustom. unfold await_prompt. rewrite Hprompt.
    rewrite !bind_run. cbn [try await result chat_log_after emitted].
    destruct (outcome 1) as [[text|object text]|err]; simpl; try done.
    unfold except_TemplateError. by destruct (isinstance_TemplateError err).
  - assert (¬ sole_custom_api (api_instances acc)) as Hnot.
    { intros Hsole. apply line_121_test in Hsole. congruence. }
    assert (match api_instances acc with
            | [llm_api] =>
                if isinstance_CustomLLMAPI (api llm_api) then [(llm_api, 1)] else []
            | _ => []
            end = []) as ->.
    { destruct (api_instances acc) as [|llm_api [|second rest]]; try done.
      destruct (isinstance_CustomLLMAPI (api llm_api)) eqn:Hcustom; [|done].
      destruct Hnot. by exists llm_api. }
    rewrite bind_run. cbn [try result chat_log_after emitted].
    destruct (api_instances acc) as [|first rest];
      rewrite bind_run; cbn [await result chat_log_after emitted];
      (destruct (async_get_base_prompt host _ config_entry) as [[text|object text]|err];
       [| |unfold except_TemplateError; simpl;
           destruct (isinstance_TemplateError err)]);
      reflexivity.
Qed.

(** X14.  In a turn that gets past the loop, the awaits of provider
    prompts are these, in this order: the prompt of each collected instance
    once, in the loop, in the order of the collection, as its first await
    (line 90); then, when the [CustomLLMAPI] is the only provider, the same
    prompt a second time, by the prompt block (line 124).  No other prompt
    is awaited, and every collected instance has an awaitable prompt. *)
Theorem X14_prompts_awaited llm_api_names chat_log user_name acc :
  collects llm_api_names chat_log user_name acc →
  (∀ llm_api, llm_api ∈ api_instances acc →
     ∃ outcome, api_prompt llm_api = Awaitable outcome) ∧
  omap prompt_awaited_by (emitted (collect_apis user_name llm_api_names chat_log))
    = (λ llm_api, (llm_api, 0)) <$> api_instances acc ∧
  omap prompt_awaited_by (emitted (async_update_llm_data llm_api_names chat_log))
    = ((λ llm_api, (llm_api, 0)) <$> api_instances acc) ++
      match api_instances acc with
      | [llm_api] =>
          if isinstance_CustomLLMAPI (api llm_api) then [(llm_api, 1)] else []
      | _ => []
      end.
Proof.
  intros Hcollects.
  assert (∀ llm_api, llm_api ∈ api_instances acc →
            ∃ outcome, api_prompt llm_api = Awaitable outcome) as Hawaitable
    by (intros llm_api; by apply (collected_prompt_awaitable _ _ _ _ _ Hcollects)).
  assert (omap prompt_awaited_by
            (emitted (collect_apis user_name llm_api_names chat_log))
          = (λ llm_api, (llm_api, 0)) <$> api_instances acc) as Hloop.
  { destruct (collects_accumulators host hass user_input config_entry
                _ _ _ _ Hcollects) as (-> & _ & _).
    destruct Hcollects as [_ Hacc].
    destruct llm_api_names as [[|api_name names]|]; try done.
    change (default [] (Some (api_name :: names))) with (api_name :: names).
    apply for_api_names_awaits. unfold collect_apis in Hacc. by rewrite Hacc. }
  split; [done|]. split; [done|].
  assert (omap prompt_awaited_by (emitted (get_user_name chat_log)) = []) as Huser
    by (apply (omap_other_kind _ _ _ (get_user_name_events chat_log));
        by intros [| [] | |]).
  pose proof (build_prompt_awaits user_name acc chat_log Hawaitable) as Hblock.
  destruct (result (build_prompt user_name acc chat_log))
    as [[prompt_object prompt]|err] eqn:Hres.
  - destruct (turn_published _ _ _ _ _ _ _ _ _ _ Hcollects Hres) as (_ & _ & ->).
    rewrite !omap_app, Huser, Hloop, Hblock, publish_events.
    rewrite (omap_other_kind _ _ _ (publication_events_kind acc prompt chat_log))
      by (by intros [| [] | |]).
    by rewrite app_nil_r.
  - destruct (turn_raises_in_prompt _ _ _ _ _ _ _ _ _ Hcollects Hres)
      as (_ & _ & ->).
    by rewrite !omap_app, Huser, Hloop, Hblock.
Qed.

(** Up to the handler of the prompt block nothing is read from the chat
    log. *)
Lemma get_user_name_oblivious : oblivious get_user_name.
Proof. unfold get_user_name. oblivious. Qed.

Lemma collect_apis_oblivious user_name llm_api_names :
  oblivious (collect_apis user_name llm_api_names).
Proof.
  destruct llm_api_names as [[|api_name names]|]; try apply oblivious_ret.
  unfold collect_apis. generalize (api_name :: names) as all_names.
  generalize nothing_collected as acc.
  intros acc all_names. revert acc.
  induction all_names as [|name rest IH]; intros acc.
  - apply oblivious_ret.
  - apply oblivious_bind; [|done].
    unfold collect_api, get_llm_api, await_prompt, except_HomeAssistantError,
      LOGGER_debug, LOGGER_error.
    oblivious.
Qed.

Lemma prompt_block_oblivious user_name acc :
  oblivious (prompt_block user_name acc).
Proof. unfold prompt_block, await_prompt, LOGGER_debug. oblivious. Qed.

Lemma py_or_idem a b : py_or a (py_or a b) = py_or a b.
Proof. unfold py_or. by destruct (truthy a). Qed.

(** X15.  A turn that returns can be run again: on the chat log it left,
    with the same request and the same answers of the collaborators, it
    returns the same prompt object, sends the same events and leaves the
    chat log as it found it.  The extra system prompt is not appended a
    second time (lines 168-201). *)
Theorem X15_returning_turn_is_idempotent llm_api_names chat_log prompt_object :
  result (async_update_llm_data llm_api_names chat_log) = Ok prompt_object →
  let after := chat_log_after (async_update_llm_data llm_api_names chat_log) in
  result (async_update_llm_data llm_api_names after) = Ok prompt_object ∧
  chat_log_after (async_update_llm_data llm_api_names after) = after ∧
  emitted (async_update_llm_data llm_api_names after)
    = emitted (async_update_llm_data llm_api_names chat_log).
Proof.
  intros Hret after.
  destruct (turn_returns _ _ _ _ _ _ _ Hret)
    as (user_name & acc & prompt & Hcollects & Hbuild & Hpub).
  destruct (turn_published _ _ _ _ _ _ _ _ _ _ Hcollects Hbuild)
    as (_ & Hafter & Hev).
  destruct (publish_run host user_input acc prompt_object prompt chat_log)
    as [Hlog Hres].
  rewrite Hpub in Hres.
  destruct (content chat_log) as [|message messages] eqn:Hcontent; [done|].
  clear Hres.
  set (selected := py_or (input_extra_system_prompt user_input)
                         (extra_system_prompt chat_log)) in *.
  set (final := with_extra_system_prompt prompt selected) in *.
  assert (after = {| conversation_id := conversation_id chat_log;
                     content := SystemContent final :: messages;
                     extra_system_prompt := selected;
                     llm_api := effective_api acc final |}) as Hafter'
    by (unfold after; by rewrite Hafter, Hlog).
  destruct (get_user_name_oblivious after chat_log) as [Huser Huser_ev].
  destruct (collect_apis_oblivious user_name llm_api_names after chat_log)
    as [Hacc Hacc_ev].
  destruct (prompt_block_oblivious user_name acc after chat_log)
    as [Hblock Hblock_ev].
  assert (collects llm_api_names after user_name acc) as Hcollects'.
  { destruct Hcollects as [? ?]. split; congruence. }
  pose proof (build_prompt_returns _ _ _ _ Hbuild) as Hblock0.
  destruct (build_prompt_ok host hass user_input config_entry user_name acc
              _ chat_log Hblock0) as [_ Hbuild_ev].
  rewrite <- Hblock in Hblock0.
  destruct (build_prompt_ok host hass user_input config_entry user_name acc
              _ after Hblock0) as [Hbuild' Hbuild_ev'].
  destruct (turn_published _ _ _ _ _ _ _ _ _ _ Hcollects' Hbuild')
    as (-> & -> & ->).
  destruct (publish_run host user_input acc prompt_object prompt after)
    as [-> ->].
  rewrite Hev, Huser_ev, Hacc_ev, Hbuild_ev', Hblock_ev, Hbuild_ev.
  rewrite !publish_events. unfold publication_events, selected_extra_system_prompt.
  rewrite Hafter'. cbn [conversation_id content extra_system_prompt llm_api].
  assert (py_or (input_extra_system_prompt user_input) selected = selected) as ->
    by apply py_or_idem.
  fold final. by rewrite Hcontent.
Qed.

End phases.

(** ** The household again *)

Module MoreTurns.
Import Household.

(** X3 on a chat log without messages, with an override: the turn raises
    and the chat log has the provider and the override on it. *)
Lemma X3_witness :
  List.filter conversation_trace
    (emitted (async_update_llm_data host hass (question (Some "Be brief.")) entry
                (Some ["weather"]) empty_chat)) = [] ∧
  chat_log_after (async_update_llm_data host hass (question (Some "Be brief.")) entry
                    (Some ["weather"]) empty_chat) =
    {| conversation_id := "conv-43";
       content := [];
       extra_system_prompt := Some "Be brief.";
       llm_api := Some weather |} ∧
  chat_log_after (async_update_llm_data host hass (question (Some "Be brief.")) entry
                    (Some ["weather"]) empty_chat) ≠ empty_chat.
Proof.
  pose proof (X3_raising_turn_leaves_chat_log host hass (question (Some "Be brief."))
                entry (Some ["weather"]) empty_chat IndexError eq_refl)
    as (Hnone & Hreached & _).
  split; [exact Hnone|].
  destruct (Hreached (Some "Ada") weather_alone None
              (join nl ["Base."; "Tools: weather."])
              (conj eq_refl eq_refl) eq_refl) as (_ & _ & Hlog).
  split; [exact Hlog|].
  intros Hsame. rewrite Hlog in Hsame. discriminate Hsame.
Defined.

(** X4 on a turn with the weather provider. *)
Lemma X4_witness :
  List.filter conversation_trace
    (emitted (async_update_llm_data host hass (question None) entry
                (Some ["weather"]) (chat None)))
  = [async_conversation_trace_append
       [SystemContent (join nl ["Base."; "Tools: weather."]);
        UserContent "Will it rain?"]
       (Some ["get_forecast"; "get_temperature"])].
Proof.
  exact (proj1 (X4_trace_record_of_returning_turn host hass (question None) entry
                  (Some ["weather"]) (chat None) None eq_refl)).
Defined.

(** X5 on a turn with an override. *)
Lemma X5_witness :
  List.filter tags_trace
    (emitted (async_update_llm_data host hass (question (Some "Be brief.")) entry
                (Some ["weather"]) (chat None)))
  = [update_current_trace ["extra_system_prompt"]].
Proof.
  refine (X5_trace_tagged_for_extra_prompt host hass (question (Some "Be brief."))
            entry (Some ["weather"]) (chat None) (Some "Ada") weather_alone None
            (join nl ["Base."; "Tools: weather."]) _ _).
  - split; reflexivity.
  - reflexivity.
Defined.

(** X9 on a custom API whose prompt has a broken template: as a coroutine
    object, which the loop has run, it gives the [RuntimeError]; as a
    prompt that is made anew at each await, the [ConverseError]. *)
Lemma X9_witness :
  (result (async_update_llm_data host_with_broken_coroutine_template hass
             (question None) entry (Some ["custom-conversation"]) (chat None))
   = Raise RuntimeError ∧
   chat_log_after (async_update_llm_data host_with_broken_coroutine_template hass
                     (question None) entry (Some ["custom-conversation"]) (chat None))
   = chat None ∧
   Forall (λ ev, renders_base_prompt ev = false ∧ trace_record ev = false)
          (emitted (async_update_llm_data host_with_broken_coroutine_template hass
                      (question None) entry (Some ["custom-conversation"])
                      (chat None)))) ∧
  (result (async_update_llm_data host_with_broken_custom_template hass
             (question None) entry (Some ["custom-conversation"]) (chat None))
   = Raise (ConverseError "Error rendering prompt" "conv-42"
              {| response_language := "en";
                 error_code := Some UNKNOWN;
                 speech := Some "Sorry, I had a problem with my template" |}) ∧
   chat_log_after (async_update_llm_data host_with_broken_custom_template hass
                     (question None) entry (Some ["custom-conversation"]) (chat None))
   = chat None ∧
   Forall (λ ev, renders_base_prompt ev = false ∧ trace_record ev = false)
          (emitted (async_update_llm_data host_with_broken_custom_template hass
                      (question None) entry (Some ["custom-conversation"])
                      (chat None)))).
Proof.
  split.
  - refine (X9_sole_custom_prompt_failure_ends_turn
              host_with_broken_coroutine_template
              hass (question None) entry (Some ["custom-conversation"]) (chat None)
              (Some "Ada") templated_coroutine_alone templated_coroutine
              RuntimeError _ _ _ _).
    + split; reflexivity.
    + reflexivity.
    + reflexivity.
    + reflexivity.
  - refine (X9_sole_custom_prompt_failure_ends_turn host_with_broken_custom_template
              hass (question None) entry (Some ["custom-conversation"]) (chat None)
              (Some "Ada") templated_custom_alone templated_custom
              (TemplateError "undefined variable") _ _ _ _).
    + split; reflexivity.
    + reflexivity.
    + reflexivity.
    + reflexivity.
Defined.

(** X10 on a prompt manager that cannot be reached. *)
Lemma X10_witness :
  result (async_update_llm_data host_with_offline_prompt_manager hass
            (question None) entry (Some ["weather"]) (chat None))
  = Raise (HomeAssistantError "prompt manager offline") ∧
  chat_log_after (async_update_llm_data host_with_offline_prompt_manager hass
                    (question None) entry (Some ["weather"]) (chat None))
  = chat None ∧
  Forall (λ ev, rendering_error_record ev = false ∧ trace_record ev = false)
         (emitted (async_update_llm_data host_with_offline_prompt_manager hass
                     (question None) entry (Some ["weather"]) (chat None))).
Proof.
  refine (X10_other_rendering_errors_propagate host_with_offline_prompt_manager
            hass (question None) entry (Some ["weather"]) (chat None)
            (Some "Ada") weather_alone (HomeAssistantError "prompt manager offline")
            _ _ _ _).
  - split; reflexivity.
  - intros (llm_api & Hinst & Hcustom). injection Hinst as <-. discriminate Hcustom.
  - reflexivity.
  - reflexivity.
Defined.

(** X11 on a turn with the weather provider. *)
Lemma X11_witness :
  llm_api (chat_log_after
             (async_update_llm_data host hass (question None) entry
                (Some ["weather"]) (chat None)))
  = Some weather.
Proof.
  refine (X11_single_provider_installed_unchanged host hass (question None) entry
            (Some ["weather"]) (chat None) (Some "Ada") weather_alone weather None
            (join nl ["Base."; "Tools: weather."]) _ _ _).
  - split; reflexivity.
  - reflexivity.
  - reflexivity.
Defined.

(** X12 on a turn with two providers. *)
Lemma X12_witness :
  List.filter renders_base_prompt
    (emitted (async_update_llm_data host hass (question None) entry
                (Some ["custom-conversation"; "weather"]) (chat None)))
  = [Await (prompt_manager_async_get_base_prompt
              {| ha_name := "Home"; prompt_user_name := Some "Ada" |} entry)].
Proof.
  refine (X12_base_prompt_rendered_once host hass (question None) entry
            (Some ["custom-conversation"; "weather"]) (chat None) (Some "Ada")
            custom_and_weather _ _).
  - split; reflexivity.
  - intros (llm_api & Hinst & _). discriminate Hinst.
Defined.

(** X13 on a turn with the custom API alone. *)
Lemma X13_witness :
  ∃ user_name acc,
    collects host hass (question None) entry (Some ["custom-conversation"])
             (chat None) user_name acc ∧
    ((∃ provider p,
        api_instances acc = [provider] ∧
        isinstance_CustomLLMAPI (api provider) = true ∧
        awaited provider 1 = Ok p ∧
        Some "langfuse-7" = prompt_object_of p) ∨
     (¬ sole_custom_api (api_instances acc) ∧
      ∃ p, base_prompt host hass entry user_name = Ok p ∧
           Some "langfuse-7" = prompt_object_of p)).
Proof.
  exact (X13_returned_prompt_object host hass (question None) entry
           (Some ["custom-conversation"]) (chat None) (Some "langfuse-7") eq_refl).
Defined.

(** X14 on a turn with the custom API alone, whose prompt is awaited
    twice, and on a turn with two providers, each awaited once. *)
Lemma X14_witness :
  omap prompt_awaited_by
    (emitted (async_update_llm_data host hass (question None) entry
                (Some ["custom-conversation"]) (chat None)))
  = [(custom ada_custom_api, 0); (custom ada_custom_api, 1)] ∧
  omap prompt_awaited_by
    (emitted (async_update_llm_data host hass (question None) entry
                (Some ["custom-conversation"; "weather"]) (chat None)))
  = [(custom ada_custom_api, 0); (weather, 0)].
Proof.
  split.
  - exact (proj2 (proj2 (X14_prompts_awaited host hass (question None) entry
                           (Some ["custom-conversation"]) (chat None) (Some "Ada")
                           custom_alone (conj eq_refl eq_refl)))).
  - exact (proj2 (proj2 (X14_prompts_awaited host hass (question None) entry
                           (Some ["custom-conversation"; "weather"]) (chat None)
                           (Some "Ada") custom_and_weather (conj eq_refl eq_refl)))).
Defined.

(** X15 on a turn with an override: the second run does not append it
    again. *)
Lemma X15_witness :
  result (async_update_llm_data host hass (question (Some "Be brief.")) entry
            (Some ["weather"])
            (chat_log_after
               (async_update_llm_data host hass (question (Some "Be brief.")) entry
                  (Some ["weather"]) (chat None))))
  = Ok None ∧
  chat_log_after
    (async_update_llm_data host hass (question (Some "Be brief.")) entry
       (Some ["weather"])
       (chat_log_after
          (async_update_llm_data host hass (question (Some "Be brief.")) entry
             (Some ["weather"]) (chat None))))
  = chat_log_after
      (async_update_llm_data host hass (question (Some "Be brief.")) entry
         (Some ["weather"]) (chat None)) ∧
  emitted
    (async_update_llm_data host hass (question (Some "Be brief.")) entry
       (Some ["weather"])
       (chat_log_after
          (async_update_llm_data host hass (question (Some "Be brief.")) entry
             (Some ["weather"]) (chat None))))
  = emitted
      (async_update_llm_data host hass (question (Some "Be brief.")) entry
         (Some ["weather"]) (chat None)).
Proof.
  exact (X15_returning_turn_is_idempotent host hass (question (Some "Be brief."))
           entry (Some ["weather"]) (chat None) None eq_refl).
Defined.

(** Two more turns, run. *)
Example registry_string_prompt_ends_turn :
  let plain :=
    {| api := RegisteredAPI "notes";
       api_prompt := PromptText "Tools: notes.";
       llm_context := kitchen_context;
       tools := ["add_note"];
       custom_serializer := None |} in
  let registry :=
    {| DOMAIN := DOMAIN host;
       LLM_API_ID := LLM_API_ID host;
       async_get_user := async_get_user host;
       async_get_api := λ _ _, Ok plain;
       async_get_api_instance := async_get_api_instance host;
       async_get_base_prompt := async_get_base_prompt host |} in
  breaks_loop registry hass (question None) entry (Some "Ada") "notes" ∧
  result (async_update_llm_data registry hass (question None) entry
            (Some ["notes"]) (chat None)) = Raise TypeError.
Proof. split; [exact I|reflexivity]. Qed.

(** The reserved name on an installation with a Langfuse client, and on
    one where the stored object tests false. *)
Example stored_client_is_attached :
  emitted (get_llm_api host (hass_with langfuse) (question None) entry (Some "Ada")
             "custom-conversation" (chat None))
  = [Log DEBUG "Using Custom LLM API for request" [];
     Log DEBUG "Setting langfuse client for Custom LLM API" [];
     Await (custom_async_get_api_instance
              {| custom_user_name := Some "Ada";
                 conversation_config_entry := entry;
                 langfuse_client := Some langfuse |}
              kitchen_context)].
Proof. vm_compute. reflexivity. Qed.

Example falsy_stored_object_is_not_attached :
  hass_langfuse_client host (hass_with disabled_langfuse) entry
    = Some disabled_langfuse ∧
  emitted (get_llm_api host (hass_with disabled_langfuse) (question None) entry
             (Some "Ada") "custom-conversation" (chat None))
  = [Log DEBUG "Using Custom LLM API for request" [];
     Await (custom_async_get_api_instance ada_custom_api kitchen_context)].
Proof. split; vm_compute; reflexivity. Qed.

(** The custom API with a coroutine prompt next to another provider: the
    prompt is awaited once and the turn returns. *)
Example coroutine_prompt_with_second_provider :
  result (async_update_llm_data host_with_coroutine_prompt hass (question None) entry
            (Some ["custom-conversation"; "weather"]) (chat None)) = Ok None ∧
  content (chat_log_after
             (async_update_llm_data host_with_coroutine_prompt hass (question None)
                entry (Some ["custom-conversation"; "weather"]) (chat None)))
  = [SystemContent (join nl ["Base."; "Custom complete prompt."; "Tools: weather."]);
     UserContent "Will it rain?"].
Proof. split; reflexivity. Qed.

Example anonymous_request_skips_lookup :
  let anonymous :=
    {| context := Some {| user_id := None |};
       language := "en";
       device_id := None;
       input_extra_system_prompt := None |} in
  List.filter consults_user_store
    (emitted (async_update_llm_data host hass anonymous entry
                (Some ["weather"]) (chat None))) = [].
Proof. reflexivity. Qed.

End MoreTurns.
